(** * The BHEereum full node service (bhe/backend.go)

    A shallow embedding of the service object of [bhe/backend.go] and of the
    operations defined on it: construction ([New]), the API listing ([APIs]),
    mining-address resolution ([BHEerbase]), the reorg-preservation policy
    ([isLocalBlock], [shouldPreserve]), the mining control surface
    ([StartMining]) and the life cycle ([Start], [Stop]).

    The service owns a number of collaborators (chain, pool, miner, protocol
    manager, store, ...) that live in other packages.  The fields the file
    itself reads and writes are fields of the model; every method invoked on
    a collaborator is recorded, in program order, as a [Call].  Logging is
    left out. *)

From Stdlib Require Import ZArith List String Bool Lia.
Import ListNotations.

Set Warnings "-register-all,-notation-for-abbreviation".

Local Open Scope string_scope.
Local Open Scope list_scope.
Local Open Scope Z_scope.

(** ** Plain data *)

(** [common.Address] is a 20-byte array; it is represented by the number the
    bytes spell.  [common.Address{}] is the all-zero array. *)
Definition Address := Z.
Definition zeroAddress : Address := 0.

(** [*big.Int] values that cannot be nil. *)
Definition BigInt := Z.

(** [downloader.SyncMode], an integer kind (it is printed with [%d]). *)
Definition SyncMode := Z.

(** The errors this file creates, one constructor per [errors.New] or
    [fmt.Errorf] site, and the errors handed back by collaborators. *)
Inductive error : Type :=
| ErrLightSync
    (* "can't run BHE.BHEereum in light sync mode, use les.LightBHEereum" *)
| ErrInvalidSyncMode (mode : SyncMode)
    (* "invalid sync mode %d" *)
| ErrDatabaseVersion (onDisk supported : Z)
    (* "database version is v%d, GBHE %s only supports v%d" *)
| ErrBHEerbaseRequired
    (* "BHEerbase must be explicitly specified" *)
| ErrBHEerbaseMissing (cause : error)
    (* "BHEerbase missing: %v" *)
| ErrSignerMissing (cause : option error)
    (* "signer missing: %v" *)
| ErrInvalidPeerConfig (lightPeers maxPeers : Z)
    (* "invalid peer config: light peer count (%d) >= total peer count (%d)" *)
| ErrCollaborator (msg : string).

(** Go's [int]: [intBits]-bit two's complement (32 or 64 depending on the
    build target); sums, differences and products wrap, division truncates
    toward zero. *)
Definition wrapInt (intBits : Z) (z : Z) : Z :=
  (z + 2 ^ (intBits - 1)) mod 2 ^ intBits - 2 ^ (intBits - 1).

Definition minInt (intBits : Z) : Z := - 2 ^ (intBits - 1).
Definition maxInt (intBits : Z) : Z := 2 ^ (intBits - 1) - 1.

Definition int_add (intBits a b : Z) : Z := wrapInt intBits (a + b).
Definition int_sub (intBits a b : Z) : Z := wrapInt intBits (a - b).
Definition int_mul (intBits a b : Z) : Z := wrapInt intBits (a * b).
Definition int_div (intBits a b : Z) : Z := wrapInt intBits (Z.quot a b).

(** ** Configuration *)

(** The proof-of-work modes [CreateConsensusEngine] tells apart; any other
    mode takes its [default] branch. *)
Inductive PowMode : Type :=
| ModeFake
| ModeTest
| ModeShared
| ModeOther (n : Z).

Record MinerConfig : Type := mkMinerConfig {
  Miner_BHEerbase : Address;
  GasPrice : option BigInt;           (* *big.Int, nil when absent *)
  Noverify : bool
}.

Record TxPoolConfig : Type := mkTxPoolConfig {
  Locals : list Address;
  Journal : string
}.

(** The fields of [Config] that [backend.go] touches.  The three cache
    budgets and the light-server settings are [int]s. *)
Record Config : Type := mkConfig {
  cfg_SyncMode : SyncMode;
  NoPruning : bool;
  TrieCleanCache : Z;
  TrieDirtyCache : Z;
  SnapshotCache : Z;
  SkipBcVersionCheck : bool;
  Miner : MinerConfig;
  TxPool : TxPoolConfig;
  cfg_PowMode : PowMode;              (* config.BHEash.PowMode *)
  cfg_CacheDir : string;              (* config.BHEash.CacheDir *)
  GPO_Default : option BigInt;        (* config.GPO.Default, a *big.Int *)
  LightServ : Z;
  LightPeers : Z;
  NetworkId : Z
}.

(** ** RPC API descriptors *)

Inductive Service : Type :=
| PublicBHEereumAPI
| PublicMinerAPI
| PublicDownloaderAPI
| PrivateMinerAPI
| PublicFilterAPI
| PrivateAdminAPI
| PublicDebugAPI
| PrivateDebugAPI
| NetRPCService
| ForeignService (name : string).      (* a service of another package *)

Record API : Type := mkAPI {
  Namespace : string;
  Version : string;
  API_Service : Service;
  Public : bool
}.

Definition Service_eq_dec (a b : Service) : {a = b} + {a <> b}.
Proof. decide equality; apply string_dec. Defined.

Definition API_eq_dec (a b : API) : {a = b} + {a <> b}.
Proof.
  decide equality;
    [apply bool_dec | apply Service_eq_dec | apply string_dec | apply string_dec].
Defined.

(** In-place updates of the configuration object. *)
Definition set_GasPrice (p : option BigInt) (c : Config) : Config :=
  mkConfig (cfg_SyncMode c) (NoPruning c) (TrieCleanCache c)
    (TrieDirtyCache c) (SnapshotCache c) (SkipBcVersionCheck c)
    (mkMinerConfig (Miner_BHEerbase (Miner c)) p (Noverify (Miner c)))
    (TxPool c) (cfg_PowMode c) (cfg_CacheDir c) (GPO_Default c)
    (LightServ c) (LightPeers c) (NetworkId c).

Definition set_TrieCleanCache (v : Z) (c : Config) : Config :=
  mkConfig (cfg_SyncMode c) (NoPruning c) v
    (TrieDirtyCache c) (SnapshotCache c) (SkipBcVersionCheck c)
    (Miner c) (TxPool c) (cfg_PowMode c) (cfg_CacheDir c) (GPO_Default c)
    (LightServ c) (LightPeers c) (NetworkId c).

Definition set_TrieDirtyCache (v : Z) (c : Config) : Config :=
  mkConfig (cfg_SyncMode c) (NoPruning c) (TrieCleanCache c)
    v (SnapshotCache c) (SkipBcVersionCheck c)
    (Miner c) (TxPool c) (cfg_PowMode c) (cfg_CacheDir c) (GPO_Default c)
    (LightServ c) (LightPeers c) (NetworkId c).

Definition set_SnapshotCache (v : Z) (c : Config) : Config :=
  mkConfig (cfg_SyncMode c) (NoPruning c) (TrieCleanCache c)
    (TrieDirtyCache c) v (SkipBcVersionCheck c)
    (Miner c) (TxPool c) (cfg_PowMode c) (cfg_CacheDir c) (GPO_Default c)
    (LightServ c) (LightPeers c) (NetworkId c).

Definition set_Journal (j : string) (c : Config) : Config :=
  mkConfig (cfg_SyncMode c) (NoPruning c) (TrieCleanCache c)
    (TrieDirtyCache c) (SnapshotCache c) (SkipBcVersionCheck c)
    (Miner c) (mkTxPoolConfig (Locals (TxPool c)) j) (cfg_PowMode c)
    (cfg_CacheDir c) (GPO_Default c) (LightServ c) (LightPeers c) (NetworkId c).

(** ** Collaborators *)

Record Account : Type := mkAccount { acc_Address : Address }.

Record Wallet : Type := mkWallet { Accounts : list Account }.

(** [accounts.Manager]: the wallets it lists and the answer of [Find], a Go
    pair of a wallet (nil when none) and an error (nil when none). *)
Record AccountManager : Type := mkAccountManager {
  Wallets : list Wallet;
  Find : Address -> option Wallet * option error
}.

Record LesServer : Type := mkLesServer {
  les_APIs : list API
}.

Record APIBackend : Type := mkAPIBackend {
  GetAPIs : list API                  (* BHEapi.GetAPIs(backend) *)
}.

Record ProtocolManager : Type := mkProtocolManager {
  acceptTxs : Z                       (* uint32, accessed atomically *)
}.

Record MinerHandle : Type := mkMinerHandle {
  Mining : bool                       (* s.miner.Mining() *)
}.

(** A channel made by [make]: open until closed. *)
Inductive Chan : Type := ChanOpen | ChanClosed.

(** The dynamic type behind the [consensus.Engine] interface. *)
Inductive EngineImpl : Type :=
| CliqueImpl                          (* *clique.Clique *)
| BHEashImpl                          (* *BHEash.BHEash *)
| OtherImpl (name : string).          (* any other implementation *)

(** The server handed to [Start]. *)
Record Server : Type := mkServer { MaxPeers : Z }.

(** [core.CacheConfig] as [New] fills it in. *)
Record CacheConfig : Type := mkCacheConfig {
  TrieCleanLimit : Z;
  TrieDirtyLimit : Z;
  TrieDirtyDisabled : bool;
  SnapshotLimit : Z
}.

(** What [core.SetupGenesisBlock] hands back as its error. *)
Inductive GenesisErr : Type :=
| GenesisNil
| ConfigCompatError (rewindTo : Z)    (* *params.ConfigCompatError *)
| GenesisOtherError (e : error).

Record ChainConfig : Type := mkChainConfig {
  Clique : bool                       (* chainConfig.Clique != nil *)
}.

(** Functions and methods of collaborators, in the order the code invokes
    them.  A call that receives a computed value records it.  The store is
    reached through these calls only: [rawdb.ReadDatabaseVersion] and
    [rawdb.WriteDatabaseVersion] read and write its schema-version marker. *)
Inductive Call : Type :=
| AccountManager_Wallets
| Wallet_Accounts
| AccountManager_Find (a : Address)
| Engine_SetThreads (threads : Z)
| Clique_Authorize (signer : Address)
| Engine_Close
| TxPool_SetGasPrice (price : option BigInt)
| TxPool_Stop
| Miner_Start (eb : Address)          (* go s.miner.Start(eb) *)
| Miner_Stop
| ProtocolManager_Start (maxPeers : Z)
| ProtocolManager_Stop
| LesServer_Start
| LesServer_Stop
| BloomIndexer_Close
| BlockChain_Stop
| ChainDb_Close
| EventMux_Stop
| startBHEEntryUpdate
| startBloomHandlers                  (* with params.BloomBitsBlocks *)
| NewPublicNetAPI (networkID : Z)
| OpenDatabaseWithFreezer
| SetupGenesisBlock
| clique_New
| BHEash_NewFaker
| BHEash_NewTester (noverify : bool)
| BHEash_NewShared
| BHEash_New
| NewBloomIndexer
| ReadDatabaseVersion
| WriteDatabaseVersion (version : Z)
| NewBlockChain (cacheConfig : CacheConfig)
| BlockChain_SBHEead (rewindTo : Z)
| WriteChainConfig
| BloomIndexer_Start
| ResolvePath (path : string)
| NewTxPool
| NewProtocolManager (cacheLimit : Z)
| miner_New
| Miner_SetExtra
| NewOracle (gpoDefault : option BigInt)
| setupDiscovery.

(** ** Effects

    A function body either returns a value, returns an error (the Go
    [return ..., err]) or panics; on the way it may update the object it
    works on (the receiver, or the configuration during construction) and
    invoke collaborators.  After an error or a panic the rest of the body is
    not run. *)
Inductive Outcome (A : Type) : Type :=
| Returns (a : A)
| Fails (e : error)
| Panics (msg : string).
Arguments Returns {A} a.
Arguments Fails {A} e.
Arguments Panics {A} msg.

Definition M (St A : Type) : Type := St -> Outcome A * St * list Call.

Definition ret {St A : Type} (a : A) : M St A :=
  fun s => (Returns a, s, []).

Definition bind {St A B : Type} (m : M St A) (k : A -> M St B) : M St B :=
  fun s =>
    match m s with
    | (Returns a, s1, c1) =>
        match k a s1 with
        | (r, s2, c2) => (r, s2, c1 ++ c2)
        end
    | (Fails e, s1, c1) => (Fails e, s1, c1)
    | (Panics msg, s1, c1) => (Panics msg, s1, c1)
    end.

Definition get {St : Type} : M St St := fun s => (Returns s, s, []).
Definition modify {St : Type} (f : St -> St) : M St unit :=
  fun s => (Returns tt, f s, []).
Definition fail {St A : Type} (e : error) : M St A :=
  fun s => (Fails e, s, []).
Definition panic {St A : Type} (msg : string) : M St A :=
  fun s => (Panics msg, s, []).
Definition call {St : Type} (c : Call) : M St unit :=
  fun s => (Returns tt, s, [c]).

(** [v, err := f()] followed by code that inspects [err]. *)
Definition try {St A : Type} (m : M St A) : M St (error + A) :=
  fun s =>
    match m s with
    | (Returns a, s1, c1) => (Returns (inr a), s1, c1)
    | (Fails e, s1, c1) => (Returns (inl e), s1, c1)
    | (Panics msg, s1, c1) => (Panics msg, s1, c1)
    end.

(** The three components of a run. *)
Definition outcome {St A : Type} (r : Outcome A * St * list Call) : Outcome A :=
  fst (fst r).
Definition after {St A : Type} (r : Outcome A * St * list Call) : St :=
  snd (fst r).
Definition calls {St A : Type} (r : Outcome A * St * list Call) : list Call :=
  snd r.

Notation "x <- m ;; k" := (bind m (fun x => k))
  (at level 61, m at next level, right associativity).
Notation "m ;; k" := (bind m (fun _ => k))
  (at level 61, right associativity).

(** [keeps f m]: however [m] ends, what [f] reads off the state is after
    the run what it was before. *)
Definition keeps {St A B : Type} (f : St -> B) (m : M St A) : Prop :=
  forall s : St, f (after (m s)) = f s.

Section Service.

(** [types.Block], declared elsewhere. *)
Context {Block : Type}.

(** The width of [int] on the build target. *)
Variable intBits : Z.

(** Package-level names declared elsewhere: [downloader.LightSync], the
    method [SyncMode.IsValid], [DefaultConfig.Miner.GasPrice] and
    [core.BlockChainVersion]. *)
Variable LightSync : SyncMode.
Variable IsValid : SyncMode -> bool.
Variable DefaultConfig_Miner_GasPrice : BigInt.
Variable BlockChainVersion : Z.

(** What a collaborator's teardown method hands back: nil or an error. *)
Variable reports : Call -> option error.

(** A consensus engine: its dynamic type, whether that type has a
    [SetThreads(int)] method, what [Author] answers for the header of a
    block, and the APIs it exposes. *)
Record Engine : Type := mkEngine {
  eng_impl : EngineImpl;
  eng_threaded : bool;
  Author : Block -> error + Address;
  eng_APIs : list API
}.

(** The [BHEereum] struct: the fields this file reads or writes itself.  The
    remaining fields are handles whose methods appear as calls. *)
Record BHEereum : Type := mkBHEereum {
  s_config : Config;
  s_protocolManager : ProtocolManager;
  s_lesServer : option LesServer;
  s_engine : Engine;
  s_accountManager : AccountManager;
  s_closeBloomHandler : Chan;
  s_APIBackend : APIBackend;
  s_miner : MinerHandle;
  s_gasPrice : option BigInt;         (* *big.Int *)
  s_BHEerbase : Address;
  s_networkID : Z;
  s_netRPCService : option Z
}.

Definition set_BHEerbase (a : Address) (s : BHEereum) : BHEereum :=
  mkBHEereum (s_config s) (s_protocolManager s) (s_lesServer s) (s_engine s)
    (s_accountManager s) (s_closeBloomHandler s) (s_APIBackend s)
    (s_miner s) (s_gasPrice s) a (s_networkID s) (s_netRPCService s).

Definition set_acceptTxs (v : Z) (s : BHEereum) : BHEereum :=
  mkBHEereum (s_config s) (mkProtocolManager v) (s_lesServer s) (s_engine s)
    (s_accountManager s) (s_closeBloomHandler s) (s_APIBackend s)
    (s_miner s) (s_gasPrice s) (s_BHEerbase s) (s_networkID s)
    (s_netRPCService s).

Definition set_lesServer (ls : option LesServer) (s : BHEereum) : BHEereum :=
  mkBHEereum (s_config s) (s_protocolManager s) ls (s_engine s)
    (s_accountManager s) (s_closeBloomHandler s) (s_APIBackend s)
    (s_miner s) (s_gasPrice s) (s_BHEerbase s) (s_networkID s)
    (s_netRPCService s).

Definition set_closeBloomHandler (c : Chan) (s : BHEereum) : BHEereum :=
  mkBHEereum (s_config s) (s_protocolManager s) (s_lesServer s) (s_engine s)
    (s_accountManager s) c (s_APIBackend s)
    (s_miner s) (s_gasPrice s) (s_BHEerbase s) (s_networkID s)
    (s_netRPCService s).

Definition set_netRPCService (n : option Z) (s : BHEereum) : BHEereum :=
  mkBHEereum (s_config s) (s_protocolManager s) (s_lesServer s) (s_engine s)
    (s_accountManager s) (s_closeBloomHandler s) (s_APIBackend s)
    (s_miner s) (s_gasPrice s) (s_BHEerbase s) (s_networkID s) n.

(** Methods of the service work on the receiver. *)
Definition Op (A : Type) : Type := M BHEereum A.

(** *** Mining address *)

(** [func (s *BHEereum) BHEerbase() (eb common.Address, err error)] *)
Definition BHEerbase : Op Address :=
  s <- get ;;
  let BHEerbase := s_BHEerbase s in
  if negb (BHEerbase =? zeroAddress) then
    ret BHEerbase
  else
    call AccountManager_Wallets ;;
    match Wallets (s_accountManager s) with
    | wallet0 :: _ =>
        call Wallet_Accounts ;;
        match Accounts wallet0 with
        | account0 :: _ =>
            let BHEerbase := acc_Address account0 in
            modify (set_BHEerbase BHEerbase) ;;
            ret BHEerbase
        | [] => fail ErrBHEerbaseRequired
        end
    | [] => fail ErrBHEerbaseRequired
    end.

(** *** Reorg-preservation policy *)

(** The [for _, account := range s.config.TxPool.Locals] loop of
    [isLocalBlock]. *)
Fixpoint isLocalBlock_loop (author : Address) (locals : list Address) : bool :=
  match locals with
  | [] => false
  | account :: rest =>
      if account =? author then true else isLocalBlock_loop author rest
  end.

(** [func (s *BHEereum) isLocalBlock(block *types.Block) bool] *)
Definition isLocalBlock (s : BHEereum) (block : Block) : bool :=
  match Author (s_engine s) block with
  | inl _ => false
  | inr author =>
      if author =? s_BHEerbase s then true
      else isLocalBlock_loop author (Locals (TxPool (s_config s)))
  end.

(** [func (s *BHEereum) shouldPreserve(block *types.Block) bool] *)
Definition shouldPreserve (s : BHEereum) (block : Block) : bool :=
  match eng_impl (s_engine s) with
  | CliqueImpl => false
  | _ => isLocalBlock s block
  end.

(** *** Mining control *)

Definition IsMining (s : BHEereum) : bool := Mining (s_miner s).

(** [func (s *BHEereum) StartMining(threads int) error] *)
Definition StartMining (threads : Z) : Op unit :=
  s <- get ;;
  (if eng_threaded (s_engine s) then
     let threads := if threads =? 0 then -1 else threads in
     call (Engine_SetThreads threads)
   else ret tt) ;;
  s <- get ;;
  if negb (IsMining s) then
    let price := s_gasPrice s in
    call (TxPool_SetGasPrice price) ;;
    r <- try BHEerbase ;;
    match r with
    | inl err => fail (ErrBHEerbaseMissing err)
    | inr eb =>
        (match eng_impl (s_engine s) with
         | CliqueImpl =>
             call (AccountManager_Find eb) ;;
             match Find (s_accountManager s) eb with
             | (Some _, None) => call (Clique_Authorize eb)
             | (_, err) => fail (ErrSignerMissing err)
             end
         | _ => ret tt
         end) ;;
        modify (set_acceptTxs 1) ;;
        call (Miner_Start eb) ;;
        ret tt
    end
  else ret tt.

(** *** API listing *)

Definition localAPIs : list API :=
  [ mkAPI "BHE" "1.0" PublicBHEereumAPI true;
    mkAPI "BHE" "1.0" PublicMinerAPI true;
    mkAPI "BHE" "1.0" PublicDownloaderAPI true;
    mkAPI "miner" "1.0" PrivateMinerAPI false;
    mkAPI "BHE" "1.0" PublicFilterAPI true;
    mkAPI "admin" "1.0" PrivateAdminAPI false;
    mkAPI "debug" "1.0" PublicDebugAPI true;
    mkAPI "debug" "1.0" PrivateDebugAPI false;
    mkAPI "net" "1.0" NetRPCService true ].

(** [func (s *BHEereum) APIs() []rpc.API] *)
Definition APIs (s : BHEereum) : list API :=
  let apis := GetAPIs (s_APIBackend s) in
  let apis :=
    match s_lesServer s with
    | Some ls => apis ++ les_APIs ls
    | None => apis
    end in
  let apis := apis ++ eng_APIs (s_engine s) in
  let apis :=
    match s_lesServer s with
    | Some ls => apis ++ les_APIs ls
    | None => apis
    end in
  apis ++ localAPIs.

(** [func (s *BHEereum) AddLesServer(ls LesServer)]; the indexer handed to
    the light server is not part of the model. *)
Definition AddLesServer (ls : LesServer) (s : BHEereum) : BHEereum :=
  set_lesServer (Some ls) s.

(** *** Life cycle *)

Definition NetVersion (s : BHEereum) : Z := s_networkID s.

(** [func (s *BHEereum) Start(srvr *p2p.Server) error] *)
Definition Start (srvr : Server) : Op unit :=
  call startBHEEntryUpdate ;;
  call startBloomHandlers ;;
  s <- get ;;
  call (NewPublicNetAPI (NetVersion s)) ;;
  modify (set_netRPCService (Some (NetVersion s))) ;;
  let maxPeers := MaxPeers srvr in
  maxPeers <-
    (if LightServ (s_config s) >? 0 then
       if LightPeers (s_config s) >=? MaxPeers srvr then
         fail (ErrInvalidPeerConfig (LightPeers (s_config s)) (MaxPeers srvr))
       else ret (int_sub intBits maxPeers (LightPeers (s_config s)))
     else ret maxPeers) ;;
  call (ProtocolManager_Start maxPeers) ;;
  match s_lesServer s with
  | Some _ => call LesServer_Start
  | None => ret tt
  end.

(** A teardown call; what it hands back is for the caller to inspect. *)
Definition invoke (c : Call) : Op (option error) :=
  fun s => (Returns (reports c), s, [c]).

(** [close(s.closeBloomHandler)]: closing a closed channel panics. *)
Definition close_closeBloomHandler : Op unit :=
  s <- get ;;
  match s_closeBloomHandler s with
  | ChanOpen => modify (set_closeBloomHandler ChanClosed)
  | ChanClosed => panic "close of closed channel"
  end.

(** [func (s *BHEereum) Stop() error] *)
Definition Stop : Op unit :=
  invoke ProtocolManager_Stop ;;
  s <- get ;;
  match s_lesServer s with
  | Some _ => invoke LesServer_Stop ;; ret tt
  | None => ret tt
  end ;;
  invoke BloomIndexer_Close ;;
  close_closeBloomHandler ;;
  invoke TxPool_Stop ;;
  invoke Miner_Stop ;;
  invoke BlockChain_Stop ;;
  invoke Engine_Close ;;
  invoke ChainDb_Close ;;
  invoke EventMux_Stop ;;
  ret tt.

(** The teardown steps of [Stop], in order. *)
Definition teardown (s : BHEereum) : list Call :=
  [ProtocolManager_Stop] ++
  match s_lesServer s with Some _ => [LesServer_Stop] | None => [] end ++
  [BloomIndexer_Close; TxPool_Stop; Miner_Stop; BlockChain_Stop; Engine_Close;
   ChainDb_Close; EventMux_Stop].

(** *** Construction *)

(** What the node context and the collaborators' constructors answer while
    the service is being built. *)
Record Environment : Type := mkEnvironment {
  env_OpenDatabaseWithFreezer : option error;
  env_SetupGenesisBlock : ChainConfig * GenesisErr;
  env_ReadDatabaseVersion : option Z;     (* *uint64, nil when absent *)
  env_clique_New : Engine;
  env_BHEash_NewFaker : Engine;
  env_BHEash_NewTester : bool -> Engine;
  env_BHEash_NewShared : Engine;
  env_BHEash_New : Engine;
  env_NewBlockChain : option error;
  env_ResolvePath : string -> string;
  env_NewProtocolManager : error + ProtocolManager;
  env_miner_New : MinerHandle;
  env_GetAPIs : list API;
  env_AccountManager : AccountManager;
  env_setupDiscovery : option error
}.

(** Building the service works on the configuration object, which it
    updates in place. *)
Definition Ctor (A : Type) : Type := M Config A.

(** [v, err := f(); if err != nil { return nil, err }] *)
Definition check {A : Type} (r : error + A) : Ctor A :=
  match r with
  | inl e => fail e
  | inr a => ret a
  end.

(** [func CreateConsensusEngine(...) consensus.Engine] *)
Definition CreateConsensusEngine (env : Environment) (chainConfig : ChainConfig)
    (mode : PowMode) (CacheDir : string) (noverify : bool) : Ctor Engine :=
  if Clique chainConfig then
    call clique_New ;;
    ret (env_clique_New env)
  else
    match mode with
    | ModeFake => call BHEash_NewFaker ;; ret (env_BHEash_NewFaker env)
    | ModeTest =>
        call (BHEash_NewTester noverify) ;;
        ret (env_BHEash_NewTester env noverify)
    | ModeShared => call BHEash_NewShared ;; ret (env_BHEash_NewShared env)
    | ModeOther _ =>
        call (ResolvePath CacheDir) ;;
        call BHEash_New ;;
        let engine := env_BHEash_New env in
        call (Engine_SetThreads (-1)) ;;
        ret engine
    end.

(** Lines 142-149 of [New]: the schema-version check. *)
Definition checkBcVersion (config : Config) (bcVersion : option Z) : Ctor unit :=
  if negb (SkipBcVersionCheck config) then
    match bcVersion with
    | Some v =>
        if v >? BlockChainVersion then
          fail (ErrDatabaseVersion v BlockChainVersion)
        else if v <? BlockChainVersion then
          call (WriteDatabaseVersion BlockChainVersion)
        else ret tt
    | None => call (WriteDatabaseVersion BlockChainVersion)
    end
  else ret tt.

(** The first block of [New] (lines 88-108): "Ensure configuration values
    are compatible and sane". *)
Definition sanitizeConfig : Ctor unit :=
  config <- get ;;
  (if cfg_SyncMode config =? LightSync then fail ErrLightSync else ret tt) ;;
  (if negb (IsValid (cfg_SyncMode config)) then
     fail (ErrInvalidSyncMode (cfg_SyncMode config))
   else ret tt) ;;
  (match GasPrice (Miner config) with
   | None => modify (set_GasPrice (Some DefaultConfig_Miner_GasPrice))
   | Some p =>
       if p <=? 0 then modify (set_GasPrice (Some DefaultConfig_Miner_GasPrice))
       else ret tt
   end) ;;
  if NoPruning config && (TrieDirtyCache config >? 0) then
    (if SnapshotCache config >? 0 then
       modify (fun c =>
         set_TrieCleanCache
           (int_add intBits (TrieCleanCache c)
              (int_div intBits (int_mul intBits (TrieDirtyCache c) 3) 5)) c) ;;
       modify (fun c =>
         set_SnapshotCache
           (int_add intBits (SnapshotCache c)
              (int_div intBits (int_mul intBits (TrieDirtyCache c) 2) 5)) c)
     else
       modify (fun c =>
         set_TrieCleanCache
           (int_add intBits (TrieCleanCache c) (TrieDirtyCache c)) c)) ;;
    modify (set_TrieDirtyCache 0)
  else ret tt.

(** The rest of [New] (lines 110-207): "Assemble the BHEereum object". *)
Definition assemble (env : Environment) : Ctor BHEereum :=
  call OpenDatabaseWithFreezer ;;
  (match env_OpenDatabaseWithFreezer env with
   | Some err => fail err
   | None => ret tt
   end) ;;
  call SetupGenesisBlock ;;
  let '(chainConfig, genesisErr) := env_SetupGenesisBlock env in
  (match genesisErr with
   | GenesisOtherError e => fail e
   | _ => ret tt
   end) ;;
  config <- get ;;
  engine <- CreateConsensusEngine env chainConfig (cfg_PowMode config)
              (cfg_CacheDir config) (Noverify (Miner config)) ;;
  call NewBloomIndexer ;;
  let gasPrice := GasPrice (Miner config) in
  call ReadDatabaseVersion ;;
  let bcVersion := env_ReadDatabaseVersion env in
  checkBcVersion config bcVersion ;;
  let cacheConfig :=
    mkCacheConfig (TrieCleanCache config) (TrieDirtyCache config)
      (NoPruning config) (SnapshotCache config) in
  call (NewBlockChain cacheConfig) ;;
  (match env_NewBlockChain env with
   | Some err => fail err
   | None => ret tt
   end) ;;
  (* Rewind the chain in case of an incompatible config upgrade. *)
  (match genesisErr with
   | ConfigCompatError rewindTo =>
       call (BlockChain_SBHEead rewindTo) ;;
       call WriteChainConfig
   | _ => ret tt
   end) ;;
  call BloomIndexer_Start ;;
  (if negb (String.eqb (Journal (TxPool config)) EmptyString) then
     call (ResolvePath (Journal (TxPool config))) ;;
     modify (set_Journal (env_ResolvePath env (Journal (TxPool config))))
   else ret tt) ;;
  call NewTxPool ;;
  let cacheLimit :=
    int_add intBits
      (int_add intBits (TrieCleanLimit cacheConfig) (TrieDirtyLimit cacheConfig))
      (SnapshotLimit cacheConfig) in
  call (NewProtocolManager cacheLimit) ;;
  protocolManager <- check (env_NewProtocolManager env) ;;
  call miner_New ;;
  call Miner_SetExtra ;;
  let gpoDefault :=
    match GPO_Default config with
    | None => gasPrice
    | Some d => Some d
    end in
  call (NewOracle gpoDefault) ;;
  call setupDiscovery ;;
  (match env_setupDiscovery env with
   | Some err => fail err
   | None => ret tt
   end) ;;
  config <- get ;;
  ret (mkBHEereum config protocolManager None engine
         (env_AccountManager env) ChanOpen (mkAPIBackend (env_GetAPIs env))
         (env_miner_New env) gasPrice (Miner_BHEerbase (Miner config))
         (NetworkId config) None).

(** [func New(ctx, config)], which returns the service or an error. *)
Definition New (env : Environment) : Ctor BHEereum :=
  sanitizeConfig ;;
  assemble env.

End Service.

(** ** Further operations of the service *)

(** Collaborator methods invoked by the setters of the service. *)
Inductive SetterCall : Type :=
| Miner_SetBHEerbase (eb : Address).

Section ServiceSetters.

Context {Block : Type}.

(** [params.MaximumExtraDataSize], a [uint64], and the bytes the RLP
    encoder yields for the default extra data (client version, "gBHE",
    Go version, operating system); both come from other packages. *)
Variable MaximumExtraDataSize : Z.
Variable defaultExtraData : list Byte.byte.

(** [func makeExtraData(extra []byte) []byte]; a nil slice is the empty
    list. *)
Definition makeExtraData (extra : list Byte.byte) : list Byte.byte :=
  let extra :=
    if (List.length extra =? 0)%nat then defaultExtraData else extra in
  if Z.of_nat (List.length extra) >? MaximumExtraDataSize then [] else extra.

(** [func (s *BHEereum) SetBHEerbase(BHEerbase common.Address)]: the
    receiver as it is left, and the call on the miner. *)
Definition SetBHEerbase (BHEerbase : Address) (s : @BHEereum Block)
    : @BHEereum Block * list SetterCall :=
  (set_BHEerbase BHEerbase s, [Miner_SetBHEerbase BHEerbase]).

(** [func (s *BHEereum) StopMining()] *)
Definition StopMining : @Op Block unit :=
  s <- get ;;
  (if eng_threaded (s_engine s) then call (Engine_SetThreads (-1))
   else ret tt) ;;
  call Miner_Stop.

(** [func (s *BHEereum) Synced() bool] *)
Definition Synced (s : @BHEereum Block) : bool :=
  acceptTxs (s_protocolManager s) =? 1.

End ServiceSetters.

(** ** Concrete services, configurations and environments

    Small inputs on which the operations are run. *)
Module Samples.

(** Blocks are told apart by a number; the engines below name the author of
    block [n] as address [n]. *)
Definition block : Type := Z.

Definition cliqueEngine : @Engine block :=
  mkEngine CliqueImpl false (fun n => inr n)
    [mkAPI "clique" "1.0" (ForeignService "clique") false].

Definition powEngine : @Engine block :=
  mkEngine BHEashImpl true
    (fun n => if n <? 0 then inl (ErrCollaborator "unknown author") else inr n)
    [mkAPI "BHEash" "1.0" (ForeignService "BHEash") true].

Definition oneWallet (a : Address) : AccountManager :=
  mkAccountManager [mkWallet [mkAccount a]]
    (fun b => if b =? a then (Some (mkWallet [mkAccount a]), None)
              else (None, Some (ErrCollaborator "unknown account"))).

Definition noWallet : AccountManager :=
  mkAccountManager []
    (fun _ => (None, Some (ErrCollaborator "unknown account"))).

(** A full-sync configuration: mode 0, pruning on, budgets 256/256/256,
    price floor 5, no light serving. *)
Definition config0 : Config :=
  mkConfig 0 false 256 256 256 false
    (mkMinerConfig zeroAddress (Some 5) false)
    (mkTxPoolConfig [11; 12] EmptyString)
    (ModeOther 0) "BHEash" None 0 0 1.

Definition withCaches (noPruning : bool) (clean dirty snapshot : Z) : Config :=
  mkConfig 0 noPruning clean dirty snapshot false
    (mkMinerConfig zeroAddress (Some 5) false)
    (mkTxPoolConfig [11; 12] EmptyString)
    (ModeOther 0) "BHEash" None 0 0 1.

Definition withSyncMode (mode : SyncMode) : Config :=
  mkConfig mode false 256 256 256 false
    (mkMinerConfig zeroAddress (Some 5) false)
    (mkTxPoolConfig [11; 12] EmptyString)
    (ModeOther 0) "BHEash" None 0 0 1.

Definition withGasPrice (p : option BigInt) : Config :=
  set_GasPrice p config0.

Definition withLight (lightServ lightPeers : Z) : Config :=
  mkConfig 0 false 256 256 256 false
    (mkMinerConfig zeroAddress (Some 5) false)
    (mkTxPoolConfig [11; 12] EmptyString)
    (ModeOther 0) "BHEash" None lightServ lightPeers 1.

(** A constructed service around [engine], with mining address [eb]. *)
Definition service (config : Config) (engine : @Engine block)
    (am : AccountManager) (mining : bool) (eb : Address) : @BHEereum block :=
  mkBHEereum config (mkProtocolManager 0) None engine am ChanOpen
    (mkAPIBackend [mkAPI "BHE" "1.0" (ForeignService "BHEapi") true])
    (mkMinerHandle mining) (Some 5) eb 1 None.

Definition lesServer : LesServer :=
  mkLesServer [mkAPI "les" "1.0" (ForeignService "les") false].

(** The sync modes of the sample package: 0 and 1 are full-class modes, 2
    is light sync, anything else is unknown. *)
Definition lightSync : SyncMode := 2.
Definition isValid (mode : SyncMode) : bool := (0 <=? mode) && (mode <=? 2).

(** Every teardown call reports an error; no teardown call does. *)
Definition allFail (c : Call) : option error :=
  Some (ErrCollaborator "teardown failed").

Definition noneFail (c : Call) : option error := None.

(** An environment in which every constructor succeeds; the store holds
    schema version [onDisk]. *)
Definition environment (onDisk : option Z) : @Environment block :=
  mkEnvironment
    None
    (mkChainConfig false, GenesisNil)
    onDisk
    cliqueEngine powEngine (fun _ => powEngine) powEngine powEngine
    None
    (fun p => "/data/" ++ p)%string
    (inr (mkProtocolManager 0))
    (mkMinerHandle false)
    [mkAPI "BHE" "1.0" (ForeignService "BHEapi") true]
    (oneWallet 7)
    None.

End Samples.

(** Further inputs: environments in which a step of the construction goes
    wrong, and extra data. *)
Module MoreSamples.

Import Samples.

(** The environment of [Samples.environment] with the given answers of
    the store and of the genesis set-up. *)
Definition environmentWith (opened : option error)
    (genesis : ChainConfig * GenesisErr) (onDisk : option Z)
    : @Environment block :=
  mkEnvironment
    opened genesis onDisk
    cliqueEngine powEngine (fun _ => powEngine) powEngine powEngine
    None
    (fun p => "/data/" ++ p)%string
    (inr (mkProtocolManager 0))
    (mkMinerHandle false)
    [mkAPI "BHE" "1.0" (ForeignService "BHEapi") true]
    (oneWallet 7)
    None.

(** The store cannot be opened. *)
Definition brokenStore : @Environment block :=
  environmentWith (Some (ErrCollaborator "cannot open chaindata"))
    (mkChainConfig false, GenesisNil) None.

(** The stored chain configuration is incompatible from block 100 on. *)
Definition incompatibleGenesis : @Environment block :=
  environmentWith None (mkChainConfig false, ConfigCompatError 100) (Some 9).

(** Extra data of 3 bytes and of 40 bytes; a default of 5 bytes. *)
Definition shortExtra : list Byte.byte := [Byte.x67; Byte.x42; Byte.x48].
Definition longExtra : list Byte.byte := List.repeat Byte.x00 40.
Definition defaultExtra : list Byte.byte :=
  [Byte.xc4; Byte.x83; Byte.x01; Byte.x09; Byte.x00].

End MoreSamples.

(** ** Properties *)

Section Properties.

Set Default Proof Using "Type".

Context {Block : Type}.
Variable intBits : Z.
Variable LightSync : SyncMode.
Variable IsValid : SyncMode -> bool.
Variable DefaultConfig_Miner_GasPrice : BigInt.
Variable BlockChainVersion : Z.
Variable reports : Call -> option error.

Implicit Types (s : @BHEereum Block) (block : Block) (env : @Environment Block).

(** Unfolds the effect combinators in the goal. *)
Ltac run :=
  cbv [bind ret get modify fail panic call try check invoke outcome after calls].

(** *** Reorg-preservation policy *)

Lemma isLocalBlock_loop_In (author : Address) (locals : list Address) :
  isLocalBlock_loop author locals = true <-> In author locals.
Proof.
  induction locals as [|account rest IH]; simpl.
  - split; [discriminate | contradiction].
  - destruct (Z.eqb_spec account author) as [Heq | Hne].
    + split; auto.
    + rewrite IH. split; [now right | intros [H | H]; [contradiction | exact H]].
Qed.

(** A block is local exactly when the engine names its author and that
    author is the mining address or one of the configured local accounts. *)
Lemma isLocalBlock_true_iff s block :
  isLocalBlock s block = true <->
  exists author, Author (s_engine s) block = inr author /\
    (author = s_BHEerbase s \/ In author (Locals (TxPool (s_config s)))).
Proof.
  unfold isLocalBlock.
  destruct (Author (s_engine s) block) as [e | author].
  - split; [discriminate | intros (a & Ha & _); discriminate].
  - destruct (Z.eqb_spec author (s_BHEerbase s)) as [Heq | Hne].
    + split; [intros _; exists author; auto | reflexivity].
    + rewrite isLocalBlock_loop_In. split.
      * intros Hin. exists author. auto.
      * intros (a & Ha & [Hb | Hin]); inversion Ha; subst;
          [contradiction | exact Hin].
Qed.

(** C1. Under the clique (authority-round) engine [shouldPreserve] answers
    false for every block, local or not; under any other engine it answers
    what [isLocalBlock] answers for that block. *)
Theorem shouldPreserve_clique_false_else_isLocalBlock s block :
  (eng_impl (s_engine s) = CliqueImpl -> shouldPreserve s block = false) /\
  (eng_impl (s_engine s) <> CliqueImpl ->
   shouldPreserve s block = isLocalBlock s block).
Proof.
  unfold shouldPreserve.
  destruct (eng_impl (s_engine s)); split; intros H;
    try reflexivity; try discriminate; congruence.
Qed.

(** *** Mining control *)

(** C6. When the miner is already running, [StartMining] returns no error,
    leaves the service untouched (mining address, accept-transactions flag)
    and invokes nothing but [SetThreads] on a threaded engine: no price is
    pushed to the pool, no signer is authorized, no mining loop is
    launched. *)
Theorem StartMining_while_mining s (threads : Z) :
  IsMining s = true ->
  StartMining threads s =
    (Returns tt, s,
     if eng_threaded (s_engine s)
     then [Engine_SetThreads (if threads =? 0 then -1 else threads)]
     else []).
Proof.
  intros Hmining. unfold StartMining. run.
  destruct (eng_threaded (s_engine s)); rewrite Hmining; reflexivity.
Qed.

(** *** Mining address *)

(** An explicit (non-zero) mining address is returned as it is, without
    consulting the account manager. *)
Lemma BHEerbase_explicit s :
  s_BHEerbase s <> zeroAddress ->
  BHEerbase s = (Returns (s_BHEerbase s), s, []).
Proof.
  intros Hne. unfold BHEerbase. run.
  destruct (Z.eqb_spec (s_BHEerbase s) zeroAddress); [contradiction | reflexivity].
Qed.

(** After a successful call the address it returned is the stored one. *)
Lemma BHEerbase_returns_stored s s1 (eb : Address) (c1 : list Call) :
  BHEerbase s = (Returns eb, s1, c1) -> s_BHEerbase s1 = eb.
Proof.
  unfold BHEerbase. run.
  destruct (Z.eqb_spec (s_BHEerbase s) zeroAddress) as [Hz | Hnz]; simpl.
  - destruct (Wallets (s_accountManager s)) as [|wallet0 ?]; [discriminate|].
    destruct (Accounts wallet0) as [|account0 ?]; [discriminate|].
    simpl. intros H. inversion H; subst. reflexivity.
  - intros H. inversion H; subst. reflexivity.
Qed.

(** C7, amended. After a first successful call that returned a non-zero
    address (explicit, or resolved from the first account of the first
    wallet and stored), a second call returns the same address, leaves the
    service as it is and performs no account-manager lookup. *)
Theorem BHEerbase_second_call s s1 (eb : Address) (c1 : list Call) :
  BHEerbase s = (Returns eb, s1, c1) ->
  eb <> zeroAddress ->
  BHEerbase s1 = (Returns eb, s1, []).
Proof.
  intros Hfirst Hne.
  pose proof (BHEerbase_returns_stored _ _ _ _ Hfirst) as Hstored.
  rewrite <- Hstored. apply BHEerbase_explicit. congruence.
Qed.

(** *** API listing *)

(** C10. With a light server attached, [APIs] appends the light server's
    list twice, once before and once after the engine's, so each of its
    entries is counted twice in the result; with none attached the result
    is made of the backend's, the engine's and the local entries only. *)
Theorem APIs_lesServer_appended_twice s :
  match s_lesServer s with
  | Some ls =>
      APIs s = GetAPIs (s_APIBackend s) ++ les_APIs ls ++
               eng_APIs (s_engine s) ++ les_APIs ls ++ localAPIs
      /\ forall a : API,
           (count_occ API_eq_dec (APIs s) a =
            count_occ API_eq_dec (GetAPIs (s_APIBackend s)) a +
            count_occ API_eq_dec (eng_APIs (s_engine s)) a +
            count_occ API_eq_dec localAPIs a +
            2 * count_occ API_eq_dec (les_APIs ls) a)%nat
  | None =>
      APIs s = GetAPIs (s_APIBackend s) ++ eng_APIs (s_engine s) ++ localAPIs
  end.
Proof.
  unfold APIs. destruct (s_lesServer s) as [ls|].
  - split.
    + now rewrite <- !app_assoc.
    + intros a. rewrite !count_occ_app. lia.
  - now rewrite <- !app_assoc.
Qed.

(** *** Life cycle *)

(** What [Start] has invoked by the time it returns the peer-count error. *)
Lemma Start_calls_before_peer_check (srvr : Server) s :
  0 < LightServ (s_config s) ->
  MaxPeers srvr <= LightPeers (s_config s) ->
  calls (Start intBits srvr s) =
    [startBHEEntryUpdate; startBloomHandlers; NewPublicNetAPI (s_networkID s)].
Proof.
  intros Hserv Hpeers. unfold Start. run. simpl.
  destruct (Z.gtb_spec (LightServ (s_config s)) 0); [|lia].
  destruct (Z.geb_spec (LightPeers (s_config s)) (MaxPeers srvr)); [|lia].
  reflexivity.
Qed.

(** C3, amended. When light serving is enabled ([LightServ > 0]) and the
    light-peer count is at least the server's peer budget, [Start] returns
    the peer-configuration error and starts neither the protocol manager
    nor the light server. *)
Theorem Start_light_peers_error (srvr : Server) s :
  0 < LightServ (s_config s) ->
  MaxPeers srvr <= LightPeers (s_config s) ->
  outcome (Start intBits srvr s) =
    Fails (ErrInvalidPeerConfig (LightPeers (s_config s)) (MaxPeers srvr))
  /\ (forall n : Z, ~ In (ProtocolManager_Start n) (calls (Start intBits srvr s)))
  /\ ~ In LesServer_Start (calls (Start intBits srvr s)).
Proof.
  intros Hserv Hpeers.
  rewrite (Start_calls_before_peer_check srvr s Hserv Hpeers).
  split; [|split].
  - unfold Start. run. simpl.
    destruct (Z.gtb_spec (LightServ (s_config s)) 0); [|lia].
    destruct (Z.geb_spec (LightPeers (s_config s)) (MaxPeers srvr)); [|lia].
    reflexivity.
  - intros n [H | [H | [H | []]]]; discriminate.
  - intros [H | [H | [H | []]]]; discriminate.
Qed.

(** The run of [Stop] on a service whose bloom-handler channel is open. *)
Lemma Stop_open s :
  s_closeBloomHandler s = ChanOpen ->
  Stop reports s = (Returns tt, set_closeBloomHandler ChanClosed s, teardown s).
Proof.
  intros Hopen. unfold Stop, close_closeBloomHandler, teardown. run.
  destruct (s_lesServer s); rewrite Hopen; reflexivity.
Qed.

(** C2, amended. On a service whose bloom-handler channel is still open
    (no [Stop] has run yet), [Stop] returns without panic and without
    error and attempts every teardown step in order, whatever the
    individual steps report; it leaves the channel closed. *)
Theorem Stop_first_call s :
  s_closeBloomHandler s = ChanOpen ->
  outcome (Stop reports s) = Returns tt
  /\ calls (Stop reports s) = teardown s
  /\ (forall c : Call,
        In c [ProtocolManager_Stop; BloomIndexer_Close; TxPool_Stop;
              Miner_Stop; BlockChain_Stop; Engine_Close; ChainDb_Close;
              EventMux_Stop] ->
        In c (calls (Stop reports s)))
  /\ (s_lesServer s <> None -> In LesServer_Stop (calls (Stop reports s)))
  /\ after (Stop reports s) = set_closeBloomHandler ChanClosed s.
Proof.
  intros Hopen. rewrite (Stop_open s Hopen). unfold outcome, calls, after. simpl.
  repeat split.
  - intros c Hc. unfold teardown.
    destruct (s_lesServer s); simpl in Hc |- *;
      repeat (destruct Hc as [<- | Hc]; [auto 12|]); contradiction.
  - intros Hles. unfold teardown.
    destruct (s_lesServer s); [simpl; auto | contradiction].
Qed.

(** Once the channel is closed, [Stop] panics when it closes it again; the
    steps that follow are not attempted. *)
Lemma Stop_closed_panics s :
  s_closeBloomHandler s = ChanClosed ->
  outcome (Stop reports s) = Panics "close of closed channel"
  /\ ~ In TxPool_Stop (calls (Stop reports s)).
Proof.
  intros Hclosed. unfold Stop, close_closeBloomHandler. run.
  destruct (s_lesServer s); rewrite Hclosed; simpl; split; try reflexivity;
    intros Hin; repeat (destruct Hin as [Hin | Hin]; [discriminate|]);
    contradiction.
Qed.

(** Hence no service survives two calls of [Stop]. *)
Lemma Stop_twice_panics s :
  s_closeBloomHandler s = ChanOpen ->
  outcome (Stop reports (after (Stop reports s))) =
    Panics "close of closed channel".
Proof.
  intros Hopen. rewrite (Stop_open s Hopen). unfold after at 1. simpl.
  apply Stop_closed_panics. reflexivity.
Qed.

(** *** Machine integers *)

Lemma wrapInt_in_range (z : Z) :
  0 < intBits ->
  minInt intBits <= z <= maxInt intBits ->
  wrapInt intBits z = z.
Proof.
  unfold wrapInt, minInt, maxInt. intros Hbits Hz.
  assert (Hhalf : 0 < 2 ^ (intBits - 1)) by (apply Z.pow_pos_nonneg; lia).
  assert (Hfull : 2 ^ intBits = 2 * 2 ^ (intBits - 1)).
  { replace intBits with (Z.succ (intBits - 1)) at 1 by lia.
    rewrite Z.pow_succ_r by lia. reflexivity. }
  rewrite Z.mod_small by lia. lia.
Qed.

(** [d * k / 5] for a positive [d] whose product with [k] fits. *)
Lemma scaled_share (d k : Z) :
  0 < intBits -> 0 < d -> 0 < k -> d * k <= maxInt intBits ->
  int_div intBits (int_mul intBits d k) 5 = d * k / 5.
Proof.
  intros Hbits Hd Hk Hfit. unfold int_div, int_mul.
  assert (Hmin : minInt intBits < 0).
  { unfold minInt.
    assert (0 < 2 ^ (intBits - 1)) by (apply Z.pow_pos_nonneg; lia). lia. }
  assert (Hpos : 0 <= d * k) by nia.
  rewrite (wrapInt_in_range (d * k)) by lia.
  rewrite Z.quot_div_nonneg by lia.
  assert (0 <= d * k / 5 <= d * k).
  { split; [apply Z.div_pos; lia | apply Z.div_le_upper_bound; lia]. }
  apply wrapInt_in_range; lia.
Qed.

(** *** Construction *)

Local Notation sanitize :=
  (sanitizeConfig intBits LightSync IsValid DefaultConfig_Miner_GasPrice).
Local Notation construct :=
  (New intBits LightSync IsValid DefaultConfig_Miner_GasPrice BlockChainVersion).
Local Notation build := (assemble intBits BlockChainVersion).

(** C9. Construction fails when the sync mode is light sync and when the
    sync mode is not valid; the configuration is left as it was and no
    collaborator has been invoked: the store is not opened, nothing is
    built. *)
Theorem New_rejects_sync_mode env (config : Config) :
  (cfg_SyncMode config = LightSync ->
   construct env config = (Fails ErrLightSync, config, [])) /\
  (IsValid (cfg_SyncMode config) = false ->
   exists e : error, construct env config = (Fails e, config, [])).
Proof.
  unfold New, sanitizeConfig. run. split.
  - intros Hlight. rewrite Hlight, Z.eqb_refl. reflexivity.
  - intros Hinvalid.
    destruct (cfg_SyncMode config =? LightSync).
    + now exists ErrLightSync.
    + rewrite Hinvalid. now exists (ErrInvalidSyncMode (cfg_SyncMode config)).
Qed.

(** The configuration checks let an accepted sync mode through and invoke
    no collaborator. *)
Lemma sanitizeConfig_accepts (config : Config) :
  cfg_SyncMode config <> LightSync ->
  IsValid (cfg_SyncMode config) = true ->
  sanitize config = (Returns tt, after (sanitize config), []).
Proof.
  intros Hlight Hvalid. unfold sanitizeConfig. run.
  destruct (Z.eqb_spec (cfg_SyncMode config) LightSync); [contradiction|].
  rewrite Hvalid. simpl.
  destruct (GasPrice (Miner config)) as [p|]; [destruct (p <=? 0)|];
    destruct (NoPruning config && (TrieDirtyCache config >? 0));
    try destruct (SnapshotCache config >? 0); reflexivity.
Qed.

(** Once the checks pass, construction is the assembly run on the sanitized
    configuration. *)
Lemma New_accepts env (config : Config) :
  cfg_SyncMode config <> LightSync ->
  IsValid (cfg_SyncMode config) = true ->
  construct env config = build env (after (sanitize config)).
Proof.
  intros Hlight Hvalid.
  pose proof (sanitizeConfig_accepts config Hlight Hvalid) as Hrun.
  set (config' := after (sanitize config)) in *.
  unfold New, bind at 1. rewrite Hrun.
  destruct (build env config') as [[r c] l]. reflexivity.
Qed.

(** The price floor after the checks. *)
Lemma sanitizeConfig_GasPrice (config : Config) :
  cfg_SyncMode config <> LightSync ->
  IsValid (cfg_SyncMode config) = true ->
  GasPrice (Miner (after (sanitize config))) =
    match GasPrice (Miner config) with
    | Some p => if p <=? 0 then Some DefaultConfig_Miner_GasPrice else Some p
    | None => Some DefaultConfig_Miner_GasPrice
    end.
Proof.
  intros Hlight Hvalid. unfold sanitizeConfig. run.
  destruct (Z.eqb_spec (cfg_SyncMode config) LightSync); [contradiction|].
  rewrite Hvalid. simpl.
  destruct (GasPrice (Miner config)) as [p|] eqn:Hp; [destruct (p <=? 0)|];
    destruct (NoPruning config && (TrieDirtyCache config >? 0));
    try destruct (SnapshotCache config >? 0); simpl; auto.
Qed.

(** The cache budgets after the checks, in machine arithmetic. *)
Lemma sanitizeConfig_caches (config : Config) :
  cfg_SyncMode config <> LightSync ->
  IsValid (cfg_SyncMode config) = true ->
  NoPruning config = true ->
  0 < TrieDirtyCache config ->
  let config' := after (sanitize config) in
  TrieDirtyCache config' = 0 /\
  if SnapshotCache config >? 0 then
    TrieCleanCache config' =
      int_add intBits (TrieCleanCache config)
        (int_div intBits (int_mul intBits (TrieDirtyCache config) 3) 5) /\
    SnapshotCache config' =
      int_add intBits (SnapshotCache config)
        (int_div intBits (int_mul intBits (TrieDirtyCache config) 2) 5)
  else
    TrieCleanCache config' =
      int_add intBits (TrieCleanCache config) (TrieDirtyCache config) /\
    SnapshotCache config' = SnapshotCache config.
Proof.
  intros Hlight Hvalid Hprune Hdirty. unfold sanitizeConfig. run.
  destruct (Z.eqb_spec (cfg_SyncMode config) LightSync); [contradiction|].
  rewrite Hvalid, Hprune. simpl.
  destruct (Z.gtb_spec (TrieDirtyCache config) 0); [|lia].
  destruct (GasPrice (Miner config)) as [p|]; [destruct (p <=? 0)|];
    destruct (SnapshotCache config >? 0); simpl; auto.
Qed.

(** The version-check flag is not touched by the checks. *)
Lemma sanitizeConfig_SkipBcVersionCheck (config : Config) :
  SkipBcVersionCheck (after (sanitize config)) = SkipBcVersionCheck config.
Proof.
  unfold sanitizeConfig. run.
  destruct (cfg_SyncMode config =? LightSync); [reflexivity|].
  destruct (IsValid (cfg_SyncMode config)); [|reflexivity]. simpl.
  destruct (GasPrice (Miner config)) as [p|]; [destruct (p <=? 0)|];
    destruct (NoPruning config && (TrieDirtyCache config >? 0));
    try destruct (SnapshotCache config >? 0); reflexivity.
Qed.

(** Splits on every test the goal still branches on, innermost first. *)
Ltac split_tests :=
  repeat match goal with
         | |- context [match ?x with _ => _ end] =>
             lazymatch x with
             | context [match _ with _ => _ end] => fail
             | _ => destruct x eqn:?; simpl
             end
         end.

(** Frame rules for [keeps]. *)
Lemma keeps_ret {St A B : Type} (f : St -> B) (a : A) : keeps f (ret a).
Proof. intros st. reflexivity. Qed.

Lemma keeps_get {St B : Type} (f : St -> B) : keeps f get.
Proof. intros st. reflexivity. Qed.

Lemma keeps_fail {St A B : Type} (f : St -> B) (e : error) :
  keeps f (fail e : M St A).
Proof. intros st. reflexivity. Qed.

Lemma keeps_call {St B : Type} (f : St -> B) (c : Call) :
  keeps f (call c : M St unit).
Proof. intros st. reflexivity. Qed.

Lemma keeps_modify {St B : Type} (f : St -> B) (g : St -> St) :
  (forall st, f (g st) = f st) -> keeps f (modify g).
Proof. intros Hg st. apply Hg. Qed.

Lemma keeps_bind {St A A' B : Type} (f : St -> B) (m : M St A)
    (k : A -> M St A') :
  keeps f m -> (forall a, keeps f (k a)) -> keeps f (bind m k).
Proof.
  intros Hm Hk st. specialize (Hm st). unfold bind, after in *.
  destruct (m st) as [[[a | e | msg] s1] c1]; simpl in *; try exact Hm.
  specialize (Hk a s1). unfold after in Hk.
  destruct (k a s1) as [[r s2] c2]; simpl in *. congruence.
Qed.

Lemma keeps_check {A B : Type} (f : Config -> B) (r : error + A) :
  keeps f (check r).
Proof. destruct r; intros st; reflexivity. Qed.

(** Walks through a body, one statement at a time. *)
Ltac keeps_steps :=
  repeat first
    [ apply keeps_ret | apply keeps_get | apply keeps_fail | apply keeps_call
    | apply keeps_check
    | apply keeps_modify; solve [auto]
    | apply keeps_bind; [|intros ?]
    | progress cbv zeta
    | match goal with
      | |- keeps _ (match ?x with _ => _ end) => destruct x
      end ].

(** The assembly updates nothing of the configuration but the journal
    path: whatever does not depend on that path is kept. *)
Lemma assemble_keeps {B : Type} (f : Config -> B) env :
  (forall j c, f (set_Journal j c) = f c) ->
  keeps f (build env).
Proof.
  intros Hjournal. unfold assemble, CreateConsensusEngine, checkBcVersion.
  keeps_steps.
Qed.

Lemma assemble_keeps_budgets env (config : Config) :
  let config' := after (build env config) in
  GasPrice (Miner config') = GasPrice (Miner config) /\
  TrieCleanCache config' = TrieCleanCache config /\
  TrieDirtyCache config' = TrieDirtyCache config /\
  SnapshotCache config' = SnapshotCache config.
Proof.
  repeat split.
  - apply (assemble_keeps (fun c => GasPrice (Miner c))). reflexivity.
  - apply (assemble_keeps TrieCleanCache). reflexivity.
  - apply (assemble_keeps TrieDirtyCache). reflexivity.
  - apply (assemble_keeps SnapshotCache). reflexivity.
Qed.

(** A service that comes out of the assembly carries the configuration's
    price floor and an open bloom-handler channel, and has no light server
    attached. *)
Lemma assemble_service env (config : Config) s :
  outcome (build env config) = Returns s ->
  s_gasPrice s = GasPrice (Miner config) /\
  s_closeBloomHandler s = ChanOpen /\
  s_lesServer s = None.
Proof.
  unfold assemble, CreateConsensusEngine, checkBcVersion. run. simpl.
  split_tests; intros H; try discriminate; inversion H; subst; simpl; auto.
Qed.

(** A service that construction returns was assembled from the sanitized
    configuration. *)
Lemma New_returns_assembled env (config : Config) s :
  outcome (construct env config) = Returns s ->
  outcome (build env (after (sanitize config))) = Returns s.
Proof.
  unfold New, bind, outcome, after.
  destruct (sanitize config) as [[[[] | e | msg] config'] l]; simpl;
    try discriminate.
  destruct (build env config') as [[r c] l']. simpl. auto.
Qed.

(** [Stop] on a service that was constructed and never started: it returns
    without error after attempting every teardown step. *)
Lemma Stop_on_constructed env (config : Config) s :
  outcome (construct env config) = Returns s ->
  outcome (Stop reports s) = Returns tt /\ calls (Stop reports s) = teardown s.
Proof.
  intros Hnew. apply New_returns_assembled in Hnew.
  destruct (assemble_service env _ s Hnew) as (_ & Hopen & _).
  rewrite (Stop_open s Hopen). split; reflexivity.
Qed.

(** C8. Once the sync mode is accepted, construction replaces a
    non-positive price floor by [DefaultConfig.Miner.GasPrice] and keeps a
    positive one; the service it returns carries that floor. *)
Theorem New_sanitizes_GasPrice env (config : Config) (p : BigInt) :
  cfg_SyncMode config <> LightSync ->
  IsValid (cfg_SyncMode config) = true ->
  GasPrice (Miner config) = Some p ->
  (p <= 0 ->
   GasPrice (Miner (after (construct env config))) =
     Some DefaultConfig_Miner_GasPrice
   /\ forall s, outcome (construct env config) = Returns s ->
                s_gasPrice s = Some DefaultConfig_Miner_GasPrice)
  /\
  (0 < p ->
   GasPrice (Miner (after (construct env config))) = Some p
   /\ forall s, outcome (construct env config) = Returns s ->
                s_gasPrice s = Some p).
Proof.
  intros Hlight Hvalid Hprice.
  rewrite (New_accepts env config Hlight Hvalid).
  pose proof (sanitizeConfig_GasPrice config Hlight Hvalid) as Hsane.
  rewrite Hprice in Hsane.
  destruct (assemble_keeps_budgets env (after (sanitize config))) as (Hkeep & _).
  assert (Hservice : forall s,
            outcome (build env (after (sanitize config))) = Returns s ->
            s_gasPrice s = GasPrice (Miner (after (sanitize config)))).
  { intros s Hs. now destruct (assemble_service env _ s Hs). }
  split; intros Hp.
  - destruct (Z.leb_spec p 0); [|lia]. rewrite Hkeep, Hsane. split; [reflexivity|].
    intros s Hs. rewrite (Hservice s Hs). exact Hsane.
  - destruct (Z.leb_spec p 0); [lia|]. rewrite Hkeep, Hsane. split; [reflexivity|].
    intros s Hs. rewrite (Hservice s Hs). exact Hsane.
Qed.

(** C4, amended. Once the sync mode is accepted, with pruning disabled and
    a dirty budget D > 0, construction zeroes the dirty budget; with
    snapshot caching enabled it adds 3D/5 to the clean budget and 2D/5 to
    the snapshot budget, otherwise it adds D to the clean budget, provided
    3*D and the increased budgets fit in an [int]. *)
Theorem New_redistributes_dirty_cache env (config : Config) :
  0 < intBits ->
  cfg_SyncMode config <> LightSync ->
  IsValid (cfg_SyncMode config) = true ->
  NoPruning config = true ->
  0 < TrieDirtyCache config ->
  minInt intBits <= TrieCleanCache config ->
  let D := TrieDirtyCache config in
  let config' := after (construct env config) in
  TrieDirtyCache config' = 0 /\
  (0 < SnapshotCache config ->
   3 * D <= maxInt intBits ->
   TrieCleanCache config + 3 * D / 5 <= maxInt intBits ->
   SnapshotCache config + 2 * D / 5 <= maxInt intBits ->
   TrieCleanCache config' = TrieCleanCache config + 3 * D / 5 /\
   SnapshotCache config' = SnapshotCache config + 2 * D / 5) /\
  (SnapshotCache config <= 0 ->
   TrieCleanCache config + D <= maxInt intBits ->
   TrieCleanCache config' = TrieCleanCache config + D /\
   SnapshotCache config' = SnapshotCache config).
Proof.
  intros Hbits Hlight Hvalid Hprune Hdirty Hclean D config'.
  subst config'. rewrite (New_accepts env config Hlight Hvalid).
  destruct (assemble_keeps_budgets env (after (sanitize config)))
    as (_ & Hc & Hd & Hs).
  rewrite Hc, Hd, Hs. clear Hc Hd Hs.
  destruct (sanitizeConfig_caches config Hlight Hvalid Hprune Hdirty)
    as (Hzero & Hshares).
  split; [exact Hzero|]. fold D in Hshares. split.
  - intros Hsnap H3 Hcfit Hsfit.
    destruct (Z.gtb_spec (SnapshotCache config) 0); [|lia].
    destruct Hshares as (Hc & Hs). rewrite Hc, Hs.
    rewrite !scaled_share by (unfold D in *; lia).
    assert (0 <= D * 3 / 5) by (apply Z.div_pos; lia).
    assert (0 <= D * 2 / 5) by (apply Z.div_pos; lia).
    assert (Hmin : minInt intBits < 0).
    { unfold minInt.
      assert (0 < 2 ^ (intBits - 1)) by (apply Z.pow_pos_nonneg; lia). lia. }
    replace (3 * D) with (D * 3) in * by lia.
    replace (2 * D) with (D * 2) in * by lia.
    unfold int_add. rewrite !wrapInt_in_range by lia. split; reflexivity.
  - intros Hsnap Hcfit.
    destruct (Z.gtb_spec (SnapshotCache config) 0); [lia|].
    destruct Hshares as (Hc & Hs). rewrite Hc, Hs.
    unfold int_add. rewrite wrapInt_in_range by (fold D; lia).
    split; reflexivity.
Qed.

(** The version check on a store that is newer than the code. *)
Lemma assemble_version_newer env (config : Config) (cc : ChainConfig)
    (gerr : GenesisErr) (v : Z) :
  SkipBcVersionCheck config = false ->
  env_OpenDatabaseWithFreezer env = None ->
  env_SetupGenesisBlock env = (cc, gerr) ->
  (forall e, gerr <> GenesisOtherError e) ->
  env_ReadDatabaseVersion env = Some v ->
  BlockChainVersion < v ->
  outcome (build env config) = Fails (ErrDatabaseVersion v BlockChainVersion)
  /\ (forall w, ~ In (WriteDatabaseVersion w) (calls (build env config)))
  /\ (forall c, ~ In (NewBlockChain c) (calls (build env config))).
Proof.
  intros Hskip Hopen Hgen Hgerr Hver Hnewer.
  unfold assemble, CreateConsensusEngine, checkBcVersion.
  run. rewrite Hopen. simpl. rewrite Hgen. simpl.
  assert (Hgt : (v >? BlockChainVersion) = true)
    by (destruct (Z.gtb_spec v BlockChainVersion); [reflexivity | lia]).
  destruct gerr as [|rewindTo|e]; [| |now elim (Hgerr e)];
    destruct (Clique cc); try destruct (cfg_PowMode config); simpl;
    rewrite Hver, Hskip; simpl; rewrite Hgt; simpl;
    (split; [reflexivity | split; intros x Hin;
       repeat (destruct Hin as [Hin | Hin]; [discriminate|]); contradiction]).
Qed.

(** Cuts a list of calls in front of the version read. *)
Ltac cut_at_read :=
  lazymatch goal with
  | |- exists pre c post, ?l = _ =>
      let cut n := (exists (firstn n l); do 2 eexists; reflexivity) in
      first [cut 3%nat | cut 4%nat | cut 5%nat | cut 6%nat]
  end.

(** The version check on a store that is older than the code or carries no
    version: the marker is written right after it was read, and the chain
    is built right after that. *)
Lemma assemble_version_older env (config : Config) (cc : ChainConfig)
    (gerr : GenesisErr) :
  SkipBcVersionCheck config = false ->
  env_OpenDatabaseWithFreezer env = None ->
  env_SetupGenesisBlock env = (cc, gerr) ->
  (forall e, gerr <> GenesisOtherError e) ->
  (env_ReadDatabaseVersion env = None \/
   exists v, env_ReadDatabaseVersion env = Some v /\ v < BlockChainVersion) ->
  exists pre c post,
    calls (build env config) =
      pre ++ ReadDatabaseVersion :: WriteDatabaseVersion BlockChainVersion ::
             NewBlockChain c :: post.
Proof.
  intros Hskip Hopen Hgen Hgerr Hver.
  assert (Hcheck :
    checkBcVersion BlockChainVersion config (env_ReadDatabaseVersion env) config =
      (Returns tt, config, [WriteDatabaseVersion BlockChainVersion])).
  { unfold checkBcVersion. run. rewrite Hskip. simpl.
    destruct Hver as [Hnone | (v & Hsome & Holder)].
    - rewrite Hnone. reflexivity.
    - rewrite Hsome.
      destruct (Z.gtb_spec v BlockChainVersion); [lia|].
      destruct (Z.ltb_spec v BlockChainVersion); [reflexivity | lia]. }
  unfold assemble, CreateConsensusEngine.
  cbv [bind ret get modify fail call check outcome after calls].
  rewrite Hopen. simpl. rewrite Hgen. simpl.
  destruct gerr as [|rewindTo|e]; [| |now elim (Hgerr e)];
    destruct (Clique cc); try destruct (cfg_PowMode config); simpl;
    rewrite Hcheck; simpl; split_tests; cut_at_read.
Qed.

(** C5. With the version check not skipped and construction having opened
    the store and set up the genesis: when the schema version read from
    the store is greater than [BlockChainVersion], construction fails with
    the version error, writes no version marker and builds no chain; when
    it is smaller or absent, construction writes [BlockChainVersion] as
    the marker right after the read and goes on to build the chain right
    after that, with no other step in between. *)
Theorem New_version_check env (config : Config) (cc : ChainConfig)
    (gerr : GenesisErr) :
  cfg_SyncMode config <> LightSync ->
  IsValid (cfg_SyncMode config) = true ->
  SkipBcVersionCheck config = false ->
  env_OpenDatabaseWithFreezer env = None ->
  env_SetupGenesisBlock env = (cc, gerr) ->
  (forall e, gerr <> GenesisOtherError e) ->
  (forall v, env_ReadDatabaseVersion env = Some v -> BlockChainVersion < v ->
     outcome (construct env config) =
       Fails (ErrDatabaseVersion v BlockChainVersion)
     /\ (forall w, ~ In (WriteDatabaseVersion w) (calls (construct env config)))
     /\ (forall c, ~ In (NewBlockChain c) (calls (construct env config))))
  /\
  (env_ReadDatabaseVersion env = None \/
   (exists v, env_ReadDatabaseVersion env = Some v /\ v < BlockChainVersion) ->
   exists pre c post,
     calls (construct env config) =
       pre ++ ReadDatabaseVersion :: WriteDatabaseVersion BlockChainVersion ::
              NewBlockChain c :: post).
Proof.
  intros Hlight Hvalid Hskip Hopen Hgen Hgerr.
  rewrite (New_accepts env config Hlight Hvalid).
  pose proof (sanitizeConfig_SkipBcVersionCheck config) as Hskip'.
  rewrite Hskip in Hskip'.
  split.
  - intros v Hver Hnewer.
    exact (assemble_version_newer env _ cc gerr v
             Hskip' Hopen Hgen Hgerr Hver Hnewer).
  - intros Hver.
    exact (assemble_version_older env _ cc gerr
             Hskip' Hopen Hgen Hgerr Hver).
Qed.

End Properties.

(** ** The properties on concrete inputs *)

Import Samples.

(** Settles a closed comparison of integers by evaluation. *)
Ltac by_evaluation :=
  vm_compute; first [reflexivity | discriminate | intros H; discriminate H].

(** C1 on a clique service whose mining address authored block 7: the block
    is local and yet not preserved; on a proof-of-work service block 11,
    authored by a configured local account, is preserved. *)
Lemma shouldPreserve_clique_witness :
  eng_impl (s_engine (service config0 cliqueEngine (oneWallet 7) false 7)) =
    CliqueImpl
  /\ isLocalBlock (service config0 cliqueEngine (oneWallet 7) false 7) 7 = true
  /\ shouldPreserve (service config0 cliqueEngine (oneWallet 7) false 7) 7 = false
  /\ eng_impl (s_engine (service config0 powEngine (oneWallet 7) false 7)) <>
       CliqueImpl
  /\ shouldPreserve (service config0 powEngine (oneWallet 7) false 7) 11 =
       isLocalBlock (service config0 powEngine (oneWallet 7) false 7) 11.
Proof.
  split; [reflexivity | split; [reflexivity | split; [|split; [discriminate|]]]].
  - apply (proj1 (shouldPreserve_clique_false_else_isLocalBlock
                    (service config0 cliqueEngine (oneWallet 7) false 7) 7)).
    reflexivity.
  - apply (proj2 (shouldPreserve_clique_false_else_isLocalBlock
                    (service config0 powEngine (oneWallet 7) false 7) 11)).
    discriminate.
Defined.

(** C6 on a proof-of-work service that is mining, asked for 4 threads. *)
Lemma StartMining_while_mining_witness :
  IsMining (service config0 powEngine (oneWallet 7) true 0) = true
  /\ StartMining 4 (service config0 powEngine (oneWallet 7) true 0) =
       (Returns tt, service config0 powEngine (oneWallet 7) true 0,
        [Engine_SetThreads 4]).
Proof.
  split; [reflexivity|].
  apply (StartMining_while_mining
           (service config0 powEngine (oneWallet 7) true 0) 4).
  reflexivity.
Defined.

(** C7 on a service without explicit address whose first wallet holds
    account 7: the first call looks the account up and stores it, the
    second one does not look anything up. *)
Lemma BHEerbase_second_call_witness :
  BHEerbase (service config0 powEngine (oneWallet 7) false 0) =
    (Returns 7, service config0 powEngine (oneWallet 7) false 7,
     [AccountManager_Wallets; Wallet_Accounts])
  /\ 7 <> zeroAddress
  /\ BHEerbase (service config0 powEngine (oneWallet 7) false 7) =
       (Returns 7, service config0 powEngine (oneWallet 7) false 7, []).
Proof.
  split; [reflexivity | split; [discriminate|]].
  apply (BHEerbase_second_call
           (service config0 powEngine (oneWallet 7) false 0)
           (service config0 powEngine (oneWallet 7) false 7)
           7 [AccountManager_Wallets; Wallet_Accounts]).
  - reflexivity.
  - discriminate.
Defined.

(** C7 as stated fails when the first account of the first wallet is the
    zero address: the first call succeeds and returns it, but the stored
    address still reads as unset, so the second call consults the account
    manager again. *)
Lemma BHEerbase_zero_account_counterexample :
  outcome (BHEerbase (service config0 powEngine (oneWallet 0) false 0)) =
    Returns 0
  /\ calls (BHEerbase
              (after (BHEerbase (service config0 powEngine (oneWallet 0) false 0)))) =
       [AccountManager_Wallets; Wallet_Accounts].
Proof. split; reflexivity. Qed.

(** C10 on a proof-of-work service with a light server attached: the
    light server's entry comes before and after the engine's. *)
Example APIs_with_lesServer :
  APIs (AddLesServer lesServer
          (service config0 powEngine (oneWallet 7) false 0)) =
    [mkAPI "BHE" "1.0" (ForeignService "BHEapi") true;
     mkAPI "les" "1.0" (ForeignService "les") false;
     mkAPI "BHEash" "1.0" (ForeignService "BHEash") true;
     mkAPI "les" "1.0" (ForeignService "les") false] ++ localAPIs.
Proof. reflexivity. Qed.

(** C3 on the scenario of 50 light peers against a budget of 25, with
    light serving enabled. *)
Lemma Start_light_peers_error_witness :
  0 < LightServ (s_config (service (withLight 1 50) powEngine (oneWallet 7) false 0))
  /\ MaxPeers (mkServer 25) <=
       LightPeers (s_config (service (withLight 1 50) powEngine (oneWallet 7) false 0))
  /\ outcome (Start 64 (mkServer 25)
                (service (withLight 1 50) powEngine (oneWallet 7) false 0)) =
       Fails (ErrInvalidPeerConfig 50 25).
Proof.
  split; [reflexivity | split; [by_evaluation|]].
  apply (proj1 (Start_light_peers_error 64 (mkServer 25)
                  (service (withLight 1 50) powEngine (oneWallet 7) false 0)
                  eq_refl ltac:(by_evaluation))).
Defined.

(** C3 as stated fails when light serving is off ([LightServ = 0]): with 50
    light peers against a budget of 25, [Start] returns no error and
    starts the protocol manager with the whole budget. *)
Lemma Start_light_serving_off_counterexample :
  LightPeers (withLight 0 50) >= MaxPeers (mkServer 25)
  /\ outcome (Start 64 (mkServer 25)
                (service (withLight 0 50) powEngine (oneWallet 7) false 0)) =
       Returns tt
  /\ In (ProtocolManager_Start 25)
        (calls (Start 64 (mkServer 25)
                  (service (withLight 0 50) powEngine (oneWallet 7) false 0))).
Proof.
  split; [by_evaluation | split; [reflexivity|]].
  simpl. auto 10.
Qed.

(** C2 on a fresh service every teardown step of which reports an error. *)
Lemma Stop_first_call_witness :
  s_closeBloomHandler (service config0 powEngine (oneWallet 7) false 0) = ChanOpen
  /\ outcome (Stop allFail (service config0 powEngine (oneWallet 7) false 0)) =
       Returns tt
  /\ calls (Stop allFail (service config0 powEngine (oneWallet 7) false 0)) =
       [ProtocolManager_Stop; BloomIndexer_Close; TxPool_Stop; Miner_Stop;
        BlockChain_Stop; Engine_Close; ChainDb_Close; EventMux_Stop].
Proof.
  split; [reflexivity|].
  destruct (Stop_first_call allFail
              (service config0 powEngine (oneWallet 7) false 0) eq_refl)
    as (Hreturns & Hcalls & _).
  split; [exact Hreturns | exact Hcalls].
Defined.

(** C2 as stated fails: on a service that has been stopped once, with no
    teardown step reporting any error, a second [Stop] panics on closing
    the closed channel and never gets to the pool, the miner, the chain,
    the engine, the store and the event bus. *)
Lemma Stop_second_call_counterexample :
  outcome (Stop noneFail (service config0 powEngine (oneWallet 7) false 0)) =
    Returns tt
  /\ Stop noneFail
       (after (Stop noneFail (service config0 powEngine (oneWallet 7) false 0))) =
     (Panics "close of closed channel",
      after (Stop noneFail (service config0 powEngine (oneWallet 7) false 0)),
      [ProtocolManager_Stop; BloomIndexer_Close]).
Proof. split; reflexivity. Qed.

(** C9 on light sync (mode 2) and on an unknown mode (5). *)
Lemma New_rejects_sync_mode_witness :
  cfg_SyncMode (withSyncMode 2) = lightSync
  /\ New 64 lightSync isValid 1000000000 9 (environment None) (withSyncMode 2) =
       (Fails ErrLightSync, withSyncMode 2, [])
  /\ isValid (cfg_SyncMode (withSyncMode 5)) = false
  /\ exists e : error,
       New 64 lightSync isValid 1000000000 9 (environment None) (withSyncMode 5) =
         (Fails e, withSyncMode 5, []).
Proof.
  split; [reflexivity | split; [|split; [reflexivity|]]].
  - apply (proj1 (New_rejects_sync_mode 64 lightSync isValid 1000000000 9
                    (environment None) (withSyncMode 2))).
    reflexivity.
  - apply (proj2 (New_rejects_sync_mode 64 lightSync isValid 1000000000 9
                    (environment None) (withSyncMode 5))).
    reflexivity.
Defined.

(** C8 on a configured floor of -3 with a default of one gwei. *)
Lemma New_sanitizes_GasPrice_witness :
  cfg_SyncMode (withGasPrice (Some (-3))) <> lightSync
  /\ isValid (cfg_SyncMode (withGasPrice (Some (-3)))) = true
  /\ GasPrice (Miner (withGasPrice (Some (-3)))) = Some (-3)
  /\ -3 <= 0
  /\ GasPrice (Miner (after (New 64 lightSync isValid 1000000000 9
                               (environment None) (withGasPrice (Some (-3)))))) =
       Some 1000000000.
Proof.
  assert (H1 : cfg_SyncMode (withGasPrice (Some (-3))) <> lightSync)
    by discriminate.
  assert (H2 : isValid (cfg_SyncMode (withGasPrice (Some (-3)))) = true)
    by reflexivity.
  assert (H3 : GasPrice (Miner (withGasPrice (Some (-3)))) = Some (-3))
    by reflexivity.
  assert (H4 : -3 <= 0) by by_evaluation.
  destruct (New_sanitizes_GasPrice 64 lightSync isValid 1000000000 9
              (environment None) (withGasPrice (Some (-3))) (-3) H1 H2 H3)
    as (Hnonpos & _).
  destruct (Hnonpos H4) as (Hconfig & _).
  repeat (split; [assumption|]). exact Hconfig.
Defined.

(** C4 on 64-bit integers, pruning disabled, budgets clean 100, dirty 7,
    snapshot 1: the clean budget becomes 100 + 21/5 = 104, the snapshot
    budget 1 + 14/5 = 3, the dirty budget 0. *)
Lemma New_redistributes_dirty_cache_witness :
  0 < 64
  /\ cfg_SyncMode (withCaches true 100 7 1) <> lightSync
  /\ isValid (cfg_SyncMode (withCaches true 100 7 1)) = true
  /\ NoPruning (withCaches true 100 7 1) = true
  /\ 0 < TrieDirtyCache (withCaches true 100 7 1)
  /\ minInt 64 <= TrieCleanCache (withCaches true 100 7 1)
  /\ 0 < SnapshotCache (withCaches true 100 7 1)
  /\ 3 * 7 <= maxInt 64
  /\ 100 + 3 * 7 / 5 <= maxInt 64
  /\ 1 + 2 * 7 / 5 <= maxInt 64
  /\ TrieDirtyCache (after (New 64 lightSync isValid 1000000000 9
                              (environment None) (withCaches true 100 7 1))) = 0
  /\ TrieCleanCache (after (New 64 lightSync isValid 1000000000 9
                              (environment None) (withCaches true 100 7 1))) =
       100 + 3 * 7 / 5
  /\ SnapshotCache (after (New 64 lightSync isValid 1000000000 9
                             (environment None) (withCaches true 100 7 1))) =
       1 + 2 * 7 / 5.
Proof.
  assert (H1 : 0 < 64) by reflexivity.
  assert (H2 : cfg_SyncMode (withCaches true 100 7 1) <> lightSync) by discriminate.
  assert (H3 : isValid (cfg_SyncMode (withCaches true 100 7 1)) = true) by reflexivity.
  assert (H4 : NoPruning (withCaches true 100 7 1) = true) by reflexivity.
  assert (H5 : 0 < TrieDirtyCache (withCaches true 100 7 1)) by reflexivity.
  assert (H6 : minInt 64 <= TrieCleanCache (withCaches true 100 7 1)) by by_evaluation.
  assert (H7 : 0 < SnapshotCache (withCaches true 100 7 1)) by reflexivity.
  assert (H8 : 3 * 7 <= maxInt 64) by by_evaluation.
  assert (H9 : 100 + 3 * 7 / 5 <= maxInt 64) by by_evaluation.
  assert (H10 : 1 + 2 * 7 / 5 <= maxInt 64) by by_evaluation.
  destruct (New_redistributes_dirty_cache 64 lightSync isValid 1000000000 9
              (environment None) (withCaches true 100 7 1) H1 H2 H3 H4 H5 H6)
    as (Hdirty & Hsnapshot & _).
  destruct (Hsnapshot H7 H8 H9 H10) as (Hclean & Hsnap).
  repeat (split; [assumption|]). exact Hsnap.
Defined.

(** C4 as stated fails where [3 * D] leaves the range of [int]: on 64-bit
    integers with D = 2^62, clean budget 0 and snapshot caching enabled,
    the product wraps to -2^62 and the clean budget ends up negative
    instead of at 3D/5. *)
Lemma New_dirty_cache_overflow_counterexample :
  NoPruning (withCaches true 0 (2 ^ 62) 1) = true
  /\ 0 < TrieDirtyCache (withCaches true 0 (2 ^ 62) 1) <= maxInt 64
  /\ 0 < SnapshotCache (withCaches true 0 (2 ^ 62) 1)
  /\ TrieCleanCache (after (New 64 lightSync isValid 1000000000 9
                              (environment None) (withCaches true 0 (2 ^ 62) 1))) =
       -922337203685477580
  /\ TrieCleanCache (after (New 64 lightSync isValid 1000000000 9
                              (environment None) (withCaches true 0 (2 ^ 62) 1))) <>
       TrieCleanCache (withCaches true 0 (2 ^ 62) 1)
       + 3 * TrieDirtyCache (withCaches true 0 (2 ^ 62) 1) / 5.
Proof.
  split; [reflexivity|].
  split; [split; by_evaluation|].
  split; [reflexivity|].
  split; [vm_compute; reflexivity | vm_compute; discriminate].
Qed.

(** C5 on the two scenarios: version 7 on disk against 9 expected, and
    version 9 on disk against 7 expected. *)
Lemma New_version_check_witness :
  (cfg_SyncMode config0 <> lightSync
   /\ isValid (cfg_SyncMode config0) = true
   /\ SkipBcVersionCheck config0 = false)
  /\ (exists pre c post,
        calls (New 64 lightSync isValid 1000000000 9
                 (environment (Some 7)) config0) =
          pre ++ ReadDatabaseVersion :: WriteDatabaseVersion 9 ::
                 NewBlockChain c :: post)
  /\ outcome (New 64 lightSync isValid 1000000000 7
                (environment (Some 9)) config0) =
       Fails (ErrDatabaseVersion 9 7).
Proof.
  assert (H1 : cfg_SyncMode config0 <> lightSync) by discriminate.
  assert (H2 : isValid (cfg_SyncMode config0) = true) by reflexivity.
  assert (H3 : SkipBcVersionCheck config0 = false) by reflexivity.
  assert (Hgen : forall e, GenesisNil <> GenesisOtherError e)
    by (intros e H; discriminate H).
  split; [repeat split; assumption | split].
  - destruct (New_version_check 64 lightSync isValid 1000000000 9
                (environment (Some 7)) config0
                (mkChainConfig false) GenesisNil
                H1 H2 H3 eq_refl eq_refl Hgen) as (_ & Holder).
    apply Holder. right. exists 7. split; reflexivity.
  - destruct (New_version_check 64 lightSync isValid 1000000000 7
                (environment (Some 9)) config0
                (mkChainConfig false) GenesisNil
                H1 H2 H3 eq_refl eq_refl Hgen) as (Hnewer & _).
    destruct (Hnewer 9 eq_refl eq_refl) as (Hfails & _).
    exact Hfails.
Defined.

(** The first scenario, call by call. *)
Example New_upgrades_version_7_to_9 :
  calls (New 64 lightSync isValid 1000000000 9 (environment (Some 7)) config0) =
    [OpenDatabaseWithFreezer; SetupGenesisBlock; ResolvePath "BHEash";
     BHEash_New; Engine_SetThreads (-1); NewBloomIndexer;
     ReadDatabaseVersion; WriteDatabaseVersion 9;
     NewBlockChain (mkCacheConfig 256 256 false 256);
     BloomIndexer_Start; NewTxPool; NewProtocolManager 768; miner_New;
     Miner_SetExtra; NewOracle (Some 5); setupDiscovery].
Proof. reflexivity. Qed.


(** ** Further properties *)

Section FurtherProperties.

Set Default Proof Using "Type".

Context {Block : Type}.
Variable intBits : Z.
Variable LightSync : SyncMode.
Variable IsValid : SyncMode -> bool.
Variable DefaultConfig_Miner_GasPrice : BigInt.
Variable BlockChainVersion : Z.
Variable reports : Call -> option error.
Variable MaximumExtraDataSize : Z.
Variable defaultExtraData : list Byte.byte.

Implicit Types (s : @BHEereum Block) (block : Block) (env : @Environment Block).

(** Runs the effect combinators in the goal. *)
Ltac run_ops :=
  cbv [bind ret get modify fail panic call try check invoke outcome after calls].

(** Splits on the innermost test of the goal, again and again. *)
Ltac split_cases :=
  repeat match goal with
         | |- context [match ?x with _ => _ end] =>
             lazymatch x with
             | context [match _ with _ => _ end] => fail
             | _ => destruct x eqn:?; simpl
             end
         end.

(** Refutes the membership of a call in an explicit list of other calls. *)
Ltac not_in_list H :=
  simpl in H; repeat (destruct H as [H | H]; [discriminate|]); contradiction.

(** *** Mining address *)

(** Address resolution fails exactly when no address is stored and the
    first wallet, if any, lists no account: wallets after the first are
    never consulted. *)
Theorem BHEerbase_fails_iff s :
  (exists e, outcome (BHEerbase s) = Fails e) <->
  (s_BHEerbase s = zeroAddress /\
   forall w rest, Wallets (s_accountManager s) = w :: rest -> Accounts w = []).
Proof.
  unfold BHEerbase. run_ops.
  destruct (Z.eqb_spec (s_BHEerbase s) zeroAddress) as [Hz | Hnz]; simpl.
  - destruct (Wallets (s_accountManager s)) as [|wallet0 more]; simpl.
    + split; [intros _; split; [exact Hz | discriminate] | intros _; eauto].
    + destruct (Accounts wallet0) as [|account0 others] eqn:Hacc; simpl.
      * split; [|intros _; eauto].
        intros _. split; [exact Hz|]. intros w rest Heq.
        inversion Heq; subst. exact Hacc.
      * split; [intros (e & He); discriminate|].
        intros (_ & Hnone). specialize (Hnone wallet0 more eq_refl).
        rewrite Hacc in Hnone. discriminate.
  - split; [intros (e & He); discriminate | intros (Hz & _); contradiction].
Qed.

(** A failed resolution reports that the address must be given explicitly
    and leaves the service as it was. *)
Theorem BHEerbase_failure_changes_nothing s (e : error) :
  outcome (BHEerbase s) = Fails e ->
  e = ErrBHEerbaseRequired /\ after (BHEerbase s) = s.
Proof.
  unfold BHEerbase. run_ops.
  destruct (s_BHEerbase s =? zeroAddress); simpl; [|discriminate].
  destruct (Wallets (s_accountManager s)) as [|wallet0 more]; simpl.
  - intros H. inversion H. split; reflexivity.
  - destruct (Accounts wallet0); simpl; [|discriminate].
    intros H. inversion H. split; reflexivity.
Qed.

(** Resolution touches nothing but the stored address. *)
Lemma BHEerbase_frame s :
  let s1 := after (BHEerbase s) in
  s_engine s1 = s_engine s /\ s_config s1 = s_config s /\
  s_protocolManager s1 = s_protocolManager s /\
  s_accountManager s1 = s_accountManager s /\
  s_closeBloomHandler s1 = s_closeBloomHandler s.
Proof.
  unfold BHEerbase. run_ops.
  destruct (s_BHEerbase s =? zeroAddress); simpl; [|auto 6].
  destruct (Wallets (s_accountManager s)) as [|wallet0 more]; simpl; [auto 6|].
  destruct (Accounts wallet0); simpl; auto 6.
Qed.

(** Once the mining address has been resolved, every block the engine
    attributes to that address counts as local. *)
Theorem BHEerbase_makes_own_blocks_local s s1 (eb : Address)
    (c1 : list Call) block :
  BHEerbase s = (Returns eb, s1, c1) ->
  Author (s_engine s) block = inr eb ->
  isLocalBlock s1 block = true.
Proof.
  intros Hrun Hauthor.
  pose proof (BHEerbase_returns_stored s s1 eb c1 Hrun) as Hstored.
  pose proof (BHEerbase_frame s) as (Hengine & _).
  rewrite Hrun in Hengine. unfold after in Hengine. simpl in Hengine.
  unfold isLocalBlock. rewrite Hengine, Hauthor, Hstored, Z.eqb_refl.
  reflexivity.
Qed.

(** Setting a non-zero mining address and asking for it gives it back,
    without any account lookup, whatever the wallets hold; the miner is
    told the same address. *)
Theorem SetBHEerbase_then_BHEerbase s (a : Address) :
  a <> zeroAddress ->
  BHEerbase (fst (SetBHEerbase a s)) = (Returns a, fst (SetBHEerbase a s), [])
  /\ snd (SetBHEerbase a s) = [Miner_SetBHEerbase a].
Proof.
  intros Hne. split; [|reflexivity].
  apply (BHEerbase_explicit (fst (SetBHEerbase a s))). exact Hne.
Qed.

(** Setting the zero address unsets the mining address: the next
    resolution goes back to the account manager. *)
Theorem SetBHEerbase_zero_unsets s :
  exists rest,
    calls (BHEerbase (fst (SetBHEerbase zeroAddress s))) =
      AccountManager_Wallets :: rest.
Proof.
  unfold BHEerbase, SetBHEerbase. run_ops. simpl.
  destruct (Wallets (s_accountManager s)) as [|wallet0 more]; simpl;
    [eauto|]. destruct (Accounts wallet0); simpl; eauto.
Qed.

(** *** Mining control *)

(** The calls of a resolution are account-manager lookups only. *)
Lemma BHEerbase_calls s (c : Call) :
  In c (calls (BHEerbase s)) -> c = AccountManager_Wallets \/ c = Wallet_Accounts.
Proof.
  unfold BHEerbase. run_ops.
  destruct (s_BHEerbase s =? zeroAddress); simpl; [|contradiction].
  destruct (Wallets (s_accountManager s)) as [|wallet0 more]; simpl.
  - intros [H | []]; auto.
  - destruct (Accounts wallet0); simpl; intros [H | [H | []]]; auto.
Qed.

(** [StartMining] on a service that is not mining, in terms of the run of
    the address resolution. *)
Lemma StartMining_idle s (threads : Z) :
  IsMining s = false ->
  StartMining threads s =
    let scaled :=
      if eng_threaded (s_engine s)
      then [Engine_SetThreads (if threads =? 0 then -1 else threads)]
      else [] in
    let pushed := scaled ++ [TxPool_SetGasPrice (s_gasPrice s)] in
    match BHEerbase s with
    | (Returns eb, s1, c1) =>
        match eng_impl (s_engine s) with
        | CliqueImpl =>
            match Find (s_accountManager s) eb with
            | (Some _, None) =>
                (Returns tt, set_acceptTxs 1 s1,
                 pushed ++ c1 ++
                 [AccountManager_Find eb; Clique_Authorize eb; Miner_Start eb])
            | (_, err) =>
                (Fails (ErrSignerMissing err), s1,
                 pushed ++ c1 ++ [AccountManager_Find eb])
            end
        | _ =>
            (Returns tt, set_acceptTxs 1 s1, pushed ++ c1 ++ [Miner_Start eb])
        end
    | (Fails e, s1, c1) => (Fails (ErrBHEerbaseMissing e), s1, pushed ++ c1)
    | (Panics msg, s1, c1) => (Panics msg, s1, pushed ++ c1)
    end.
Proof.
  intros Hidle. unfold StartMining. run_ops.
  destruct (eng_threaded (s_engine s)); simpl; rewrite Hidle; simpl;
    destruct (BHEerbase s) as [[[eb | e | msg] s1] c1]; simpl;
    try reflexivity;
    rewrite ?app_nil_r; try reflexivity;
    destruct (eng_impl (s_engine s)); simpl;
    rewrite <- ?app_assoc; simpl; try reflexivity;
    match goal with
    | |- context [Find ?am ?a] => destruct (Find am a) as [[w|] [err|]]
    end; simpl; rewrite <- ?app_assoc; reflexivity.
Qed.

(** The address resolution never panics. *)
Lemma BHEerbase_no_panic s (msg : string) :
  outcome (BHEerbase s) <> Panics msg.
Proof.
  unfold BHEerbase. run_ops.
  destruct (s_BHEerbase s =? zeroAddress); simpl; [|discriminate].
  destruct (Wallets (s_accountManager s)) as [|wallet0 more]; simpl;
    [discriminate|]. destruct (Accounts wallet0); simpl; discriminate.
Qed.

(** A mining loop is launched only by a call that succeeds on a service
    that was not mining, only for the address the service then stores, and
    only with the accept-transactions flag set; under the clique engine
    that address has been authorized as signer first. *)
Theorem StartMining_launch_implies s (threads : Z) (eb : Address) :
  In (Miner_Start eb) (calls (StartMining threads s)) ->
  IsMining s = false
  /\ outcome (StartMining threads s) = Returns tt
  /\ s_BHEerbase (after (StartMining threads s)) = eb
  /\ acceptTxs (s_protocolManager (after (StartMining threads s))) = 1
  /\ (eng_impl (s_engine s) = CliqueImpl ->
      In (Clique_Authorize eb) (calls (StartMining threads s))).
Proof.
  intros Hin.
  destruct (IsMining s) eqn:Hmining.
  - exfalso. revert Hin. unfold StartMining. run_ops.
    destruct (eng_threaded (s_engine s)); simpl; rewrite Hmining; simpl;
      intros H; not_in_list H.
  - split; [reflexivity|]. revert Hin.
    rewrite (StartMining_idle s threads Hmining). cbv zeta.
    pose proof (BHEerbase_calls s) as Hlookups.
    pose proof (BHEerbase_returns_stored s) as Hstored.
    pose proof (BHEerbase_no_panic s) as Hnopanic.
    destruct (BHEerbase s) as [[[eb' | e | msg] s1] c1];
      unfold calls, outcome, after in *; simpl in *.
    + specialize (Hstored s1 eb' c1 eq_refl).
      assert (Hc1 : ~ In (Miner_Start eb) c1).
      { intros H. destruct (Hlookups _ H); discriminate. }
      assert (Hscaled : forall l, In (Miner_Start eb)
                (((if eng_threaded (s_engine s)
                   then [Engine_SetThreads (if threads =? 0 then -1 else threads)]
                   else []) ++ [TxPool_SetGasPrice (s_gasPrice s)]) ++ c1 ++ l) ->
                In (Miner_Start eb) l).
      { intros l H. rewrite !in_app_iff in H.
        destruct H as [[H | H] | [H | H]]; [| |contradiction|exact H].
        - destruct (eng_threaded (s_engine s)); not_in_list H.
        - not_in_list H. }
      destruct (eng_impl (s_engine s)) eqn:Himpl.
      * destruct (Find (s_accountManager s) eb') as [[w|] [err|]]; simpl;
          intros H; apply Hscaled in H; try not_in_list H.
        destruct H as [H | [H | [H | []]]]; try discriminate.
        inversion H; subst. repeat split; try reflexivity.
        intros _. rewrite !in_app_iff. right. right. simpl. auto.
      * intros H; apply Hscaled in H. destruct H as [H | []].
        inversion H; subst. repeat split; try reflexivity. discriminate.
      * intros H; apply Hscaled in H. destruct H as [H | []].
        inversion H; subst. repeat split; try reflexivity. discriminate.
    + intros H. exfalso. rewrite !in_app_iff in H.
      destruct H as [[H | H] | H].
      * destruct (eng_threaded (s_engine s)); not_in_list H.
      * not_in_list H.
      * destruct (Hlookups _ H); discriminate.
    + exfalso. apply (Hnopanic msg). reflexivity.
Qed.

(** [StartMining] on a service that is mining. *)
Lemma StartMining_busy s (threads : Z) :
  IsMining s = true ->
  StartMining threads s =
    (Returns tt, s,
     if eng_threaded (s_engine s)
     then [Engine_SetThreads (if threads =? 0 then -1 else threads)]
     else []).
Proof.
  intros Hbusy. unfold StartMining. run_ops.
  destruct (eng_threaded (s_engine s)); simpl; rewrite Hbusy; reflexivity.
Qed.

(** A failing [StartMining] has found the service idle and has already
    pushed the price floor to the pool; it has launched no mining loop,
    authorized no signer and left the accept-transactions flag alone. *)
Theorem StartMining_failure s (threads : Z) (e : error) :
  outcome (StartMining threads s) = Fails e ->
  IsMining s = false
  /\ In (TxPool_SetGasPrice (s_gasPrice s)) (calls (StartMining threads s))
  /\ (forall eb, ~ In (Miner_Start eb) (calls (StartMining threads s)))
  /\ (forall eb, ~ In (Clique_Authorize eb) (calls (StartMining threads s)))
  /\ acceptTxs (s_protocolManager (after (StartMining threads s))) =
       acceptTxs (s_protocolManager s).
Proof.
  destruct (IsMining s) eqn:Hmining.
  - rewrite (StartMining_busy s threads Hmining). discriminate.
  - rewrite (StartMining_idle s threads Hmining). cbv zeta.
    pose proof (BHEerbase_calls s) as Hlookups.
    pose proof (BHEerbase_frame s) as (_ & _ & Hpm & _).
    assert (Hprefix : forall (c : Call) l,
              (forall n, c <> Engine_SetThreads n) ->
              (forall p, c <> TxPool_SetGasPrice p) ->
              c <> AccountManager_Wallets -> c <> Wallet_Accounts ->
              In c (((if eng_threaded (s_engine s)
                      then [Engine_SetThreads (if threads =? 0 then -1 else threads)]
                      else []) ++ [TxPool_SetGasPrice (s_gasPrice s)]) ++
                    calls (BHEerbase s) ++ l) ->
              In c l).
    { intros c l Hth Hpr Hw Ha H. rewrite !in_app_iff in H.
      destruct H as [[H | H] | [H | H]]; [| | |exact H]; exfalso.
      - destruct (eng_threaded (s_engine s)); [|contradiction].
        destruct H as [H | []]. symmetry in H. exact (Hth _ H).
      - destruct H as [H | []]. symmetry in H. exact (Hpr _ H).
      - destruct (Hlookups _ H); contradiction. }
    assert (Hpushed : forall l,
              In (TxPool_SetGasPrice (s_gasPrice s))
                 (((if eng_threaded (s_engine s)
                    then [Engine_SetThreads (if threads =? 0 then -1 else threads)]
                    else []) ++ [TxPool_SetGasPrice (s_gasPrice s)]) ++ l)).
    { intros l. rewrite !in_app_iff. left. right. simpl. auto. }
    destruct (BHEerbase s) as [[[eb' | e' | msg] s1] c1];
      unfold calls, outcome, after in *; simpl in *; try discriminate.
    + destruct (eng_impl (s_engine s)); try discriminate.
      destruct (Find (s_accountManager s) eb') as [[w|] [err|]]; simpl;
        try discriminate; intros _;
        (split; [reflexivity | split; [apply Hpushed | split; [|split]]];
         [ intros eb H; apply Hprefix in H; try discriminate; not_in_list H
         | intros eb H; apply Hprefix in H; try discriminate; not_in_list H
         | rewrite Hpm; reflexivity ]).
    + intros _.
      split; [reflexivity | split; [apply Hpushed | split; [|split]]].
      * intros eb H. rewrite <- (app_nil_r c1) in H.
        apply Hprefix in H; try discriminate. contradiction.
      * intros eb H. rewrite <- (app_nil_r c1) in H.
        apply Hprefix in H; try discriminate. contradiction.
      * rewrite Hpm; reflexivity.
Qed.

(** On an idle service whose mining address resolves, and, under the
    clique engine, for which the account manager finds a wallet,
    [StartMining] succeeds: it pushes the price floor to the pool, launches
    the mining loop for the resolved address and leaves the service
    accepting transactions. *)
Theorem StartMining_success s s1 (threads : Z) (eb : Address)
    (c1 : list Call) :
  IsMining s = false ->
  BHEerbase s = (Returns eb, s1, c1) ->
  (eng_impl (s_engine s) = CliqueImpl ->
   exists w, Find (s_accountManager s) eb = (Some w, None)) ->
  outcome (StartMining threads s) = Returns tt
  /\ In (TxPool_SetGasPrice (s_gasPrice s)) (calls (StartMining threads s))
  /\ In (Miner_Start eb) (calls (StartMining threads s))
  /\ Synced (after (StartMining threads s)) = true
  /\ s_BHEerbase (after (StartMining threads s)) = eb.
Proof.
  intros Hidle Hrun Hwallet.
  pose proof (BHEerbase_returns_stored s s1 eb c1 Hrun) as Hstored.
  rewrite (StartMining_idle s threads Hidle). cbv zeta. rewrite Hrun.
  destruct (eng_impl (s_engine s)).
  - destruct (Hwallet eq_refl) as (w & Hfind). rewrite Hfind.
    unfold outcome, calls, after, Synced. simpl.
    repeat split; try assumption; rewrite !in_app_iff; simpl; auto 8.
  - unfold outcome, calls, after, Synced. simpl.
    repeat split; try assumption; rewrite !in_app_iff; simpl; auto 8.
  - unfold outcome, calls, after, Synced. simpl.
    repeat split; try assumption; rewrite !in_app_iff; simpl; auto 8.
Qed.

(** The engine is never asked for 0 threads: [StartMining] turns 0 into -1,
    and [StopMining] asks for -1. *)
Theorem SetThreads_never_zero s (threads : Z) :
  ~ In (Engine_SetThreads 0) (calls (StartMining threads s))
  /\ ~ In (Engine_SetThreads 0) (calls (StopMining s)).
Proof.
  split.
  - assert (Hscaled : ~ In (Engine_SetThreads 0)
              (if eng_threaded (s_engine s)
               then [Engine_SetThreads (if threads =? 0 then -1 else threads)]
               else [])).
    { destruct (eng_threaded (s_engine s)); [|intros []].
      intros [H | []]. inversion H as [Hzero].
      destruct (Z.eqb_spec threads 0); [discriminate | congruence]. }
    destruct (IsMining s) eqn:Hmining.
    + rewrite (StartMining_busy s threads Hmining). exact Hscaled.
    + rewrite (StartMining_idle s threads Hmining). cbv zeta.
      pose proof (BHEerbase_calls s) as Hlookups.
      assert (Hrest : forall l, ~ In (Engine_SetThreads 0) l ->
                ~ In (Engine_SetThreads 0)
                  (((if eng_threaded (s_engine s)
                     then [Engine_SetThreads (if threads =? 0 then -1 else threads)]
                     else []) ++ [TxPool_SetGasPrice (s_gasPrice s)]) ++
                   calls (BHEerbase s) ++ l)).
      { intros l Hl H. rewrite !in_app_iff in H.
        destruct H as [[H | H] | [H | H]]; [exact (Hscaled H) | | |exact (Hl H)].
        - not_in_list H.
        - destruct (Hlookups _ H); discriminate. }
      destruct (BHEerbase s) as [[[eb | e | msg] s1] c1];
        unfold calls in *; simpl in *.
      * destruct (eng_impl (s_engine s));
          try destruct (Find (s_accountManager s) eb) as [[w|] [err|]];
          simpl; apply Hrest; intros H; not_in_list H.
      * rewrite <- (app_nil_r c1). apply Hrest. intros [].
      * rewrite <- (app_nil_r c1). apply Hrest. intros [].
  - unfold StopMining. run_ops.
    destruct (eng_threaded (s_engine s)); simpl; intros H; not_in_list H.
Qed.


(** *** Life cycle *)

(** [Start] changes nothing of the service but the net RPC handle. *)
Lemma Start_frame (srvr : Server) s :
  after (Start intBits srvr s) = set_netRPCService (Some (s_networkID s)) s.
Proof.
  unfold Start, NetVersion. run_ops. simpl.
  destruct (LightServ (s_config s) >? 0);
    [destruct (LightPeers (s_config s) >=? MaxPeers srvr)|]; simpl;
    try reflexivity; destruct (s_lesServer s); reflexivity.
Qed.

(** Every [Start], also one that fails, has launched the entry updater and
    the bloom handlers and has installed the net RPC handle for the
    service's network. *)
Theorem Start_always_launches_bloom_handlers (srvr : Server) s :
  (exists rest,
     calls (Start intBits srvr s) =
       startBHEEntryUpdate :: startBloomHandlers ::
       NewPublicNetAPI (s_networkID s) :: rest)
  /\ s_netRPCService (after (Start intBits srvr s)) = Some (s_networkID s).
Proof.
  split; [|rewrite Start_frame; reflexivity].
  unfold Start, NetVersion. run_ops. simpl.
  destruct (LightServ (s_config s) >? 0);
    [destruct (LightPeers (s_config s) >=? MaxPeers srvr)|]; simpl;
    try destruct (s_lesServer s); simpl; eauto.
Qed.

(** The peer budget handed to the protocol manager: with light serving off
    it is the server's whole budget, whatever the light-peer count; with
    light serving on and a light-peer count between 0 and the budget it is
    what remains once the light peers are set aside, at least 1. *)
Theorem Start_peer_budget (srvr : Server) s :
  (LightServ (s_config s) <= 0 ->
   outcome (Start intBits srvr s) = Returns tt
   /\ In (ProtocolManager_Start (MaxPeers srvr)) (calls (Start intBits srvr s)))
  /\
  (0 < intBits ->
   0 < LightServ (s_config s) ->
   0 <= LightPeers (s_config s) < MaxPeers srvr ->
   MaxPeers srvr <= maxInt intBits ->
   outcome (Start intBits srvr s) = Returns tt
   /\ In (ProtocolManager_Start (MaxPeers srvr - LightPeers (s_config s)))
         (calls (Start intBits srvr s))
   /\ 1 <= MaxPeers srvr - LightPeers (s_config s) <= MaxPeers srvr).
Proof.
  split.
  - intros Hoff. unfold Start, NetVersion. run_ops. simpl.
    destruct (Z.gtb_spec (LightServ (s_config s)) 0); [lia|].
    destruct (s_lesServer s); simpl; auto 8.
  - intros Hbits Hon Hpeers Hmax.
    assert (Hmin : minInt intBits < 0).
    { unfold minInt.
      assert (0 < 2 ^ (intBits - 1)) by (apply Z.pow_pos_nonneg; lia). lia. }
    unfold Start, NetVersion. run_ops. simpl.
    destruct (Z.gtb_spec (LightServ (s_config s)) 0); [|lia].
    destruct (Z.geb_spec (LightPeers (s_config s)) (MaxPeers srvr)); [lia|].
    unfold int_sub. rewrite wrapInt_in_range by lia.
    destruct (s_lesServer s); simpl; (split; [reflexivity | split; [auto 8 | lia]]).
Qed.

(** [Stop] may follow [Start], whether [Start] succeeded or failed: it
    returns without error after attempting every teardown step. *)
Theorem Stop_after_Start (srvr : Server) s :
  s_closeBloomHandler s = ChanOpen ->
  outcome (Stop reports (after (Start intBits srvr s))) = Returns tt
  /\ calls (Stop reports (after (Start intBits srvr s))) = teardown s.
Proof.
  intros Hopen. rewrite Start_frame.
  rewrite (Stop_open reports (set_netRPCService (Some (s_networkID s)) s) Hopen).
  split; reflexivity.
Qed.

(** [Stop] never hands back an error: it returns nil, or it panics on
    the closed channel. *)
Theorem Stop_returns_or_panics s :
  outcome (Stop reports s) = Returns tt
  \/ outcome (Stop reports s) = Panics "close of closed channel".
Proof.
  destruct (s_closeBloomHandler s) eqn:Hchan.
  - left. rewrite (Stop_open reports s Hchan). reflexivity.
  - right. destruct (Stop_closed_panics reports s Hchan) as (Hpanic & _).
    exact Hpanic.
Qed.

(** *** Consensus engine *)

(** A clique configuration takes precedence over every proof-of-work mode;
    the engine selection always returns, never touches the configuration,
    and sets a thread count, -1, only on the production proof-of-work
    engine. *)
Theorem CreateConsensusEngine_selection env (chainConfig : ChainConfig)
    (mode : PowMode) (dir : string) (noverify : bool) (config : Config) :
  (exists engine,
     outcome (CreateConsensusEngine env chainConfig mode dir noverify config) =
       Returns engine
     /\ (Clique chainConfig = true -> engine = env_clique_New env))
  /\ after (CreateConsensusEngine env chainConfig mode dir noverify config) =
       config
  /\ (forall n,
        In (Engine_SetThreads n)
           (calls (CreateConsensusEngine env chainConfig mode dir noverify config)) ->
        n = -1 /\ Clique chainConfig = false /\ exists k, mode = ModeOther k).
Proof.
  unfold CreateConsensusEngine. run_ops.
  destruct (Clique chainConfig); [|destruct mode]; simpl;
    (split; [eexists; split; [reflexivity | try reflexivity; discriminate]|]);
    (split; [reflexivity|]); intros x H;
    try (exfalso; not_in_list H).
  destruct H as [H | [H | [H | []]]]; try discriminate.
  inversion H. eauto.
Qed.

(** *** Extra data *)

(** The miner's extra data never exceeds the protocol maximum. *)
Theorem makeExtraData_bounded (extra : list Byte.byte) :
  0 <= MaximumExtraDataSize ->
  Z.of_nat (List.length (makeExtraData MaximumExtraDataSize defaultExtraData extra))
    <= MaximumExtraDataSize.
Proof.
  intros Hmax. unfold makeExtraData.
  destruct (List.length extra =? 0)%nat;
    match goal with
    | |- context [Z.of_nat (List.length ?l) >? _] =>
        destruct (Z.gtb_spec (Z.of_nat (List.length l)) MaximumExtraDataSize)
    end; simpl; lia.
Qed.

(** Non-empty extra data within the maximum is used as it is; extra data
    beyond the maximum is dropped, not cut, and not replaced by the
    default. *)
Theorem makeExtraData_given (extra : list Byte.byte) :
  extra <> [] ->
  (Z.of_nat (List.length extra) <= MaximumExtraDataSize ->
   makeExtraData MaximumExtraDataSize defaultExtraData extra = extra)
  /\ (MaximumExtraDataSize < Z.of_nat (List.length extra) ->
      makeExtraData MaximumExtraDataSize defaultExtraData extra = []).
Proof.
  intros Hne. unfold makeExtraData.
  destruct extra as [|b rest]; [contradiction|]. simpl List.length. cbv iota beta.
  change ((S (List.length rest) =? 0)%nat) with false. cbv iota.
  split; intros H;
    destruct (Z.gtb_spec (Z.of_nat (S (List.length rest))) MaximumExtraDataSize);
    try reflexivity; lia.
Qed.

(** *** Construction *)

Local Notation sanitize :=
  (sanitizeConfig intBits LightSync IsValid DefaultConfig_Miner_GasPrice).
Local Notation construct :=
  (New intBits LightSync IsValid DefaultConfig_Miner_GasPrice BlockChainVersion).
Local Notation build := (assemble intBits BlockChainVersion).

(** Either the sync mode is rejected, and construction fails at once, or
    it is accepted, and construction is the assembly on the sanitized
    configuration. *)
Lemma New_sync_mode_cases env (config : Config) :
  (exists e, construct env config = (Fails e, config, []))
  \/ (cfg_SyncMode config <> LightSync
      /\ IsValid (cfg_SyncMode config) = true
      /\ construct env config = build env (after (sanitize config))).
Proof.
  destruct (Z.eqb_spec (cfg_SyncMode config) LightSync) as [Hlight | Hlight].
  - left. exists ErrLightSync. unfold New, sanitizeConfig. run_ops.
    rewrite Hlight, Z.eqb_refl. reflexivity.
  - destruct (IsValid (cfg_SyncMode config)) eqn:Hvalid.
    + right. split; [exact Hlight | split; [reflexivity|]].
      apply New_accepts; assumption.
    + left. exists (ErrInvalidSyncMode (cfg_SyncMode config)).
      unfold New, sanitizeConfig. run_ops.
      destruct (Z.eqb_spec (cfg_SyncMode config) LightSync); [contradiction|].
      rewrite Hvalid. reflexivity.
Qed.

(** What the checks leave of the pruning flag and of the dirty budget. *)
Lemma sanitizeConfig_dirty (config : Config) :
  cfg_SyncMode config <> LightSync ->
  IsValid (cfg_SyncMode config) = true ->
  NoPruning (after (sanitize config)) = NoPruning config
  /\ (NoPruning config = true -> TrieDirtyCache (after (sanitize config)) <= 0).
Proof.
  intros Hlight Hvalid. unfold sanitizeConfig. run_ops.
  destruct (Z.eqb_spec (cfg_SyncMode config) LightSync); [contradiction|].
  rewrite Hvalid. simpl.
  destruct (NoPruning config) eqn:Hprune; simpl.
  - destruct (Z.gtb_spec (TrieDirtyCache config) 0);
      destruct (GasPrice (Miner config)) as [p|]; try destruct (p <=? 0);
      try destruct (SnapshotCache config >? 0); simpl; rewrite ?Hprune;
      (split; [reflexivity | intros _; lia]).
  - destruct (GasPrice (Miner config)) as [p|]; try destruct (p <=? 0); simpl;
      rewrite ?Hprune; (split; [reflexivity | discriminate]).
Qed.

(** Picks the call in an explicit list. *)
Ltac pick_call :=
  repeat first [left; reflexivity | right].

(** The engine selection always returns and leaves the configuration
    alone. *)
Lemma CreateConsensusEngine_run env (chainConfig : ChainConfig)
    (mode : PowMode) (dir : string) (noverify : bool) (config : Config) :
  exists engine,
    CreateConsensusEngine env chainConfig mode dir noverify config =
      (Returns engine, config,
       calls (CreateConsensusEngine env chainConfig mode dir noverify config)).
Proof.
  unfold CreateConsensusEngine. run_ops.
  destruct (Clique chainConfig); [|destruct mode]; simpl; eexists; reflexivity.
Qed.

(** The version check returns or fails, and leaves the configuration
    alone; when it fails it has made no call. *)
Lemma checkBcVersion_run (config : Config) (bcVersion : option Z) :
  checkBcVersion BlockChainVersion config bcVersion config =
    (Returns tt, config,
     calls (checkBcVersion BlockChainVersion config bcVersion config))
  \/ exists e,
       checkBcVersion BlockChainVersion config bcVersion config =
         (Fails e, config, []).
Proof.
  unfold checkBcVersion. run_ops.
  destruct (SkipBcVersionCheck config); simpl; [auto|].
  destruct bcVersion as [v|]; [|auto].
  destruct (v >? BlockChainVersion); [eauto|].
  destruct (v <? BlockChainVersion); auto.
Qed.

(** Finds a call in a sequence given as a concatenation; refutes a call in
    an explicit list. *)
Ltac pick_among :=
  rewrite ?in_app_iff; simpl; rewrite ?in_app_iff; simpl; auto 40.

Ltac not_in_goal H :=
  simpl in H;
  repeat (destruct H as [H | H]; [subst; rewrite ?in_app_iff; simpl; auto 30|]);
  contradiction.

(** Every call of the assembly belongs to the sequence of a complete
    assembly: a failure only cuts that sequence short. *)
Lemma assemble_calls_among env (config : Config) (c : Call) :
  In c (calls (build env config)) ->
  In c
    ([OpenDatabaseWithFreezer; SetupGenesisBlock] ++
     calls (CreateConsensusEngine env (fst (env_SetupGenesisBlock env))
              (cfg_PowMode config) (cfg_CacheDir config)
              (Noverify (Miner config)) config) ++
     [NewBloomIndexer; ReadDatabaseVersion] ++
     calls (checkBcVersion BlockChainVersion config
              (env_ReadDatabaseVersion env) config) ++
     [NewBlockChain
        (mkCacheConfig (TrieCleanCache config) (TrieDirtyCache config)
           (NoPruning config) (SnapshotCache config))] ++
     match snd (env_SetupGenesisBlock env) with
     | ConfigCompatError n => [BlockChain_SBHEead n; WriteChainConfig]
     | _ => []
     end ++
     [BloomIndexer_Start] ++
     (if negb (String.eqb (Journal (TxPool config)) EmptyString)
      then [ResolvePath (Journal (TxPool config))] else []) ++
     [NewTxPool;
      NewProtocolManager
        (int_add intBits
           (int_add intBits (TrieCleanCache config) (TrieDirtyCache config))
           (SnapshotCache config));
      miner_New; Miner_SetExtra;
      NewOracle
        match GPO_Default config with
        | None => GasPrice (Miner config)
        | Some d => Some d
        end;
      setupDiscovery]).
Proof.
  destruct (env_SetupGenesisBlock env) as [chainConfig genesisErr] eqn:Hgen.
  cbn [fst snd].
  destruct (CreateConsensusEngine_run env chainConfig (cfg_PowMode config)
              (cfg_CacheDir config) (Noverify (Miner config)) config)
    as (engine & Hengine).
  set (engineCalls := calls (CreateConsensusEngine env chainConfig
         (cfg_PowMode config) (cfg_CacheDir config) (Noverify (Miner config))
         config)) in *.
  pose proof (checkBcVersion_run config (env_ReadDatabaseVersion env)) as Hcheck.
  set (checkCalls := calls (checkBcVersion BlockChainVersion config
         (env_ReadDatabaseVersion env) config)) in *.
  unfold assemble. run_ops. rewrite Hgen.
  destruct (env_OpenDatabaseWithFreezer env); simpl;
    [intros H; not_in_goal H|].
  destruct genesisErr; simpl; rewrite ?Hengine; simpl;
    try (intros H; not_in_goal H);
    (destruct Hcheck as [Hcheck | (e & Hcheck)]; rewrite Hcheck; simpl;
     [|intros H; rewrite in_app_iff in H; destruct H as [H | H];
       [pick_among | not_in_goal H]]);
    split_cases; intros H;
    repeat match type of H with
           | _ \/ _ => destruct H as [H | H]
           | False => contradiction
           | In _ (_ ++ _) => rewrite in_app_iff in H
           | In _ (_ :: _) => simpl in H
           | In _ [] => contradiction
           end;
    try subst c; pick_among.
Qed.

(** Every call of a construction is a call of the assembly on the
    sanitized configuration, and then the sync mode was accepted. *)
Lemma New_calls_among env (config : Config) (c : Call) :
  In c (calls (construct env config)) ->
  cfg_SyncMode config <> LightSync
  /\ IsValid (cfg_SyncMode config) = true
  /\ In c (calls (build env (after (sanitize config)))).
Proof.
  destruct (New_sync_mode_cases env config) as [(e & Hfail) | (H1 & H2 & Hrun)].
  - rewrite Hfail. intros [].
  - rewrite Hrun. auto.
Qed.

(** The calls of the engine selection and of the version check. *)
Lemma CreateConsensusEngine_calls env (chainConfig : ChainConfig)
    (mode : PowMode) (dir : string) (noverify : bool) (config : Config)
    (c : Call) :
  In c (calls (CreateConsensusEngine env chainConfig mode dir noverify config)) ->
  c = clique_New \/ c = BHEash_NewFaker \/ c = BHEash_NewTester noverify \/
  c = BHEash_NewShared \/ c = ResolvePath dir \/ c = BHEash_New \/
  c = Engine_SetThreads (-1).
Proof.
  unfold CreateConsensusEngine. run_ops.
  destruct (Clique chainConfig); [|destruct mode]; simpl; intros H;
    repeat (destruct H as [H | H]; [subst c; auto 10|]); contradiction.
Qed.

Lemma checkBcVersion_calls (config : Config) (bcVersion : option Z) (c : Call) :
  In c (calls (checkBcVersion BlockChainVersion config bcVersion config)) ->
  c = WriteDatabaseVersion BlockChainVersion
  /\ SkipBcVersionCheck config = false
  /\ (bcVersion = None \/
      exists v, bcVersion = Some v /\ v < BlockChainVersion).
Proof.
  unfold checkBcVersion. run_ops.
  destruct (SkipBcVersionCheck config); simpl; [intros []|].
  destruct bcVersion as [v|]; simpl.
  - destruct (Z.gtb_spec v BlockChainVersion); simpl; [intros []|].
    destruct (Z.ltb_spec v BlockChainVersion); simpl; [|intros []].
    intros [Hc | []]. subst c. eauto 6.
  - intros [Hc | []]. subst c. auto.
Qed.

(** The price floor the checks leave: the default, or the configured
    positive floor. *)
Lemma sanitizeConfig_floor (config : Config) :
  cfg_SyncMode config <> LightSync ->
  IsValid (cfg_SyncMode config) = true ->
  exists p, GasPrice (Miner (after (sanitize config))) = Some p
            /\ (p = DefaultConfig_Miner_GasPrice
                \/ (0 < p /\ GasPrice (Miner config) = Some p)).
Proof.
  intros Hlight Hvalid.
  rewrite (sanitizeConfig_GasPrice intBits LightSync IsValid
             DefaultConfig_Miner_GasPrice config Hlight Hvalid).
  destruct (GasPrice (Miner config)) as [p|]; [|eauto].
  destruct (Z.leb_spec p 0); eauto.
Qed.

(** The checks leave the oracle default alone. *)
Lemma sanitizeConfig_GPO_Default (config : Config) :
  GPO_Default (after (sanitize config)) = GPO_Default config.
Proof.
  unfold sanitizeConfig. run_ops.
  destruct (cfg_SyncMode config =? LightSync); [reflexivity|].
  destruct (IsValid (cfg_SyncMode config)); [|reflexivity]. simpl.
  destruct (GasPrice (Miner config)) as [p|]; [destruct (p <=? 0)|];
    destruct (NoPruning config && (TrieDirtyCache config >? 0));
    try destruct (SnapshotCache config >? 0); reflexivity.
Qed.

(** Takes a membership in the sequence of a complete assembly apart. *)
Ltac scan H :=
  rewrite ?in_app_iff in H; simpl in H;
  repeat match type of H with
         | _ \/ _ => destruct H as [H | H]
         | False => contradiction
         | In _ (_ ++ _) => rewrite in_app_iff in H
         | In _ (_ :: _) => simpl in H
         | In _ [] => contradiction
         | In _ (match ?x with _ => _ end) => destruct x eqn:?
         | In _ (calls (CreateConsensusEngine _ _ _ _ _ _)) =>
             apply CreateConsensusEngine_calls in H
         end;
  try discriminate.

(** In archive mode the chain is never built with a dirty-cache budget:
    every chain built by a construction has the dirty cache disabled
    exactly when pruning is disabled, and then a dirty limit of at most
    0. *)
Theorem New_archive_dirty_limit env (config : Config) (cc : CacheConfig) :
  In (NewBlockChain cc) (calls (construct env config)) ->
  TrieDirtyDisabled cc = NoPruning config
  /\ (NoPruning config = true -> TrieDirtyLimit cc <= 0).
Proof.
  intros H. apply New_calls_among in H. destruct H as (Hlight & Hvalid & H).
  apply assemble_calls_among in H.
  destruct (sanitizeConfig_dirty config Hlight Hvalid) as (Hprune & Hdirty).
  scan H.
  - apply checkBcVersion_calls in H. destruct H as (H & _). discriminate.
  - inversion H; subst. simpl. rewrite Hprune. auto.
Qed.

(** The head of the chain is moved back only when the genesis set-up
    reported a configuration-compatibility error, and then to the block
    that error names. *)
Theorem New_rewinds_only_on_compat_error env (config : Config) (n : Z) :
  In (BlockChain_SBHEead n) (calls (construct env config)) ->
  snd (env_SetupGenesisBlock env) = ConfigCompatError n.
Proof.
  intros H. apply New_calls_among in H. destruct H as (_ & _ & H).
  apply assemble_calls_among in H.
  scan H.
  - apply checkBcVersion_calls in H. destruct H as (H & _). discriminate.
  - inversion H; subst. reflexivity.
Qed.

(** The version marker is written only with the check not skipped and a
    version on disk that is absent or older, and only ever to
    [BlockChainVersion]. *)
Theorem New_writes_version_only_when_older env (config : Config) (w : Z) :
  In (WriteDatabaseVersion w) (calls (construct env config)) ->
  w = BlockChainVersion
  /\ SkipBcVersionCheck config = false
  /\ (env_ReadDatabaseVersion env = None \/
      exists v, env_ReadDatabaseVersion env = Some v /\ v < BlockChainVersion).
Proof.
  intros H. apply New_calls_among in H. destruct H as (_ & _ & H).
  apply assemble_calls_among in H.
  pose proof (sanitizeConfig_SkipBcVersionCheck intBits LightSync IsValid
                DefaultConfig_Miner_GasPrice config) as Hskip.
  scan H.
  apply checkBcVersion_calls in H. destruct H as (H & Hs & Hv).
  inversion H; subst. rewrite Hskip in Hs. auto.
Qed.

(** The price oracle is never built without a default: it gets the
    configured oracle default or, without one, the sanitized price floor,
    that is, the package default or the configured positive floor. *)
Theorem New_oracle_default env (config : Config) (d : option BigInt) :
  In (NewOracle d) (calls (construct env config)) ->
  exists p, d = Some p
    /\ (GPO_Default config = Some p
        \/ (GPO_Default config = None
            /\ (p = DefaultConfig_Miner_GasPrice
                \/ (0 < p /\ GasPrice (Miner config) = Some p)))).
Proof.
  intros H. apply New_calls_among in H. destruct H as (Hlight & Hvalid & H).
  apply assemble_calls_among in H.
  destruct (sanitizeConfig_floor config Hlight Hvalid) as (p & Hp & Hfloor).
  pose proof (sanitizeConfig_GPO_Default config) as Hgpo.
  scan H.
  - apply checkBcVersion_calls in H. destruct H as (H & _). discriminate.
  - inversion H as [Hd]. rewrite Hgpo.
    destruct (GPO_Default config) as [g|]; [eauto|].
    exists p. rewrite Hp. auto.
Qed.

(** A service that construction returns has a price floor, and it is the
    package default or the configured positive floor. *)
Theorem New_service_price_floor env (config : Config) s :
  outcome (construct env config) = Returns s ->
  exists p, s_gasPrice s = Some p
    /\ (p = DefaultConfig_Miner_GasPrice
        \/ (0 < p /\ GasPrice (Miner config) = Some p)).
Proof.
  intros Hnew.
  destruct (New_sync_mode_cases env config) as [(e & Hfail) | (Hlight & Hvalid & _)].
  - rewrite Hfail in Hnew. discriminate.
  - apply New_returns_assembled in Hnew.
    destruct (assemble_service _ _ env _ s Hnew) as (Hprice & _).
    destruct (sanitizeConfig_floor config Hlight Hvalid) as (p & Hp & Hfloor).
    exists p. rewrite Hprice, Hp. auto.
Qed.

(** A failure to open the store, or a genesis error other than a
    configuration-compatibility error, is handed back as it is, and
    construction stops there: no engine is selected and nothing is
    built. *)
Theorem New_store_failure env (config : Config) :
  cfg_SyncMode config <> LightSync ->
  IsValid (cfg_SyncMode config) = true ->
  (forall err, env_OpenDatabaseWithFreezer env = Some err ->
     outcome (construct env config) = Fails err
     /\ calls (construct env config) = [OpenDatabaseWithFreezer])
  /\
  (forall chainConfig e,
     env_OpenDatabaseWithFreezer env = None ->
     env_SetupGenesisBlock env = (chainConfig, GenesisOtherError e) ->
     outcome (construct env config) = Fails e
     /\ calls (construct env config) =
          [OpenDatabaseWithFreezer; SetupGenesisBlock]).
Proof.
  intros Hlight Hvalid.
  rewrite (New_accepts intBits LightSync IsValid DefaultConfig_Miner_GasPrice
             BlockChainVersion env config Hlight Hvalid).
  split.
  - intros err Hopen. unfold assemble. run_ops. rewrite Hopen. simpl. auto.
  - intros chainConfig e Hopen Hgen. unfold assemble. run_ops.
    rewrite Hopen. simpl. rewrite Hgen. simpl. auto.
Qed.

(** Redistributing the dirty budget keeps the total of the three budgets
    up to rounding: with snapshot caching the total drops by at most 1
    (by nothing when D is a multiple of 5), without it the total is
    unchanged; this as long as 3*D and the increased budgets fit in an
    [int]. *)
Theorem New_redistribution_total env (config : Config) :
  0 < intBits ->
  cfg_SyncMode config <> LightSync ->
  IsValid (cfg_SyncMode config) = true ->
  NoPruning config = true ->
  0 < TrieDirtyCache config ->
  minInt intBits <= TrieCleanCache config ->
  let D := TrieDirtyCache config in
  let total (c : Config) := TrieCleanCache c + TrieDirtyCache c + SnapshotCache c in
  let config' := after (construct env config) in
  (0 < SnapshotCache config ->
   3 * D <= maxInt intBits ->
   TrieCleanCache config + 3 * D / 5 <= maxInt intBits ->
   SnapshotCache config + 2 * D / 5 <= maxInt intBits ->
   total config - 1 <= total config' <= total config
   /\ (D mod 5 = 0 -> total config' = total config))
  /\
  (SnapshotCache config <= 0 ->
   TrieCleanCache config + D <= maxInt intBits ->
   total config' = total config).
Proof.
  intros Hbits Hlight Hvalid Hprune Hdirty Hclean D total config'.
  subst config' total. cbv beta.
  rewrite (New_accepts intBits LightSync IsValid DefaultConfig_Miner_GasPrice
             BlockChainVersion env config Hlight Hvalid).
  destruct (assemble_keeps_budgets intBits BlockChainVersion env
              (after (sanitize config))) as (_ & Hc & Hd & Hs).
  cbv zeta in Hc, Hd, Hs. rewrite Hc, Hd, Hs. clear Hc Hd Hs.
  destruct (sanitizeConfig_caches intBits LightSync IsValid
              DefaultConfig_Miner_GasPrice config Hlight Hvalid Hprune Hdirty)
    as (Hzero & Hshares).
  assert (Hmin : minInt intBits < 0).
  { unfold minInt.
    assert (0 < 2 ^ (intBits - 1)) by (apply Z.pow_pos_nonneg; lia). lia. }
  rewrite Hzero. fold D in Hshares. split.
  - intros Hsnap H3 Hcfit Hsfit.
    destruct (Z.gtb_spec (SnapshotCache config) 0); [|lia].
    destruct Hshares as (Hc & Hs). rewrite Hc, Hs.
    rewrite !(scaled_share intBits) by (unfold D in *; lia).
    replace (3 * D) with (D * 3) in * by lia.
    replace (2 * D) with (D * 2) in * by lia.
    assert (0 <= D * 3 / 5) by (apply Z.div_pos; lia).
    assert (0 <= D * 2 / 5) by (apply Z.div_pos; lia).
    unfold int_add. rewrite !(wrapInt_in_range intBits) by lia.
    fold D. split.
    + Z.div_mod_to_equations. lia.
    + intros Hmod. Z.div_mod_to_equations. lia.
  - intros Hsnap Hcfit.
    destruct (Z.gtb_spec (SnapshotCache config) 0); [lia|].
    destruct Hshares as (Hc & Hs). rewrite Hc, Hs.
    unfold int_add. rewrite (wrapInt_in_range intBits) by (fold D; lia).
    fold D. lia.
Qed.

End FurtherProperties.

(** ** The further properties on concrete inputs *)

Import MoreSamples.

(** Settles the membership of a call in a computed list of calls. *)
Ltac by_search := vm_compute; auto 30.

(** Resolution on a service without address and without wallet. *)
Lemma BHEerbase_failure_changes_nothing_witness :
  outcome (BHEerbase (service config0 powEngine noWallet false 0)) =
    Fails ErrBHEerbaseRequired
  /\ after (BHEerbase (service config0 powEngine noWallet false 0)) =
       service config0 powEngine noWallet false 0.
Proof.
  split; [reflexivity|].
  apply (proj2 (BHEerbase_failure_changes_nothing
                  (service config0 powEngine noWallet false 0)
                  ErrBHEerbaseRequired eq_refl)).
Defined.

(** Block 7, which the engine attributes to address 7, is not local before
    the address is resolved from the wallet, and is local afterwards. *)
Lemma BHEerbase_makes_own_blocks_local_witness :
  isLocalBlock (service config0 powEngine (oneWallet 7) false 0) 7 = false
  /\ BHEerbase (service config0 powEngine (oneWallet 7) false 0) =
       (Returns 7, service config0 powEngine (oneWallet 7) false 7,
        [AccountManager_Wallets; Wallet_Accounts])
  /\ isLocalBlock (service config0 powEngine (oneWallet 7) false 7) 7 = true.
Proof.
  split; [reflexivity | split; [reflexivity|]].
  apply (BHEerbase_makes_own_blocks_local
           (service config0 powEngine (oneWallet 7) false 0)
           (service config0 powEngine (oneWallet 7) false 7)
           7 [AccountManager_Wallets; Wallet_Accounts] 7);
    reflexivity.
Defined.

(** Address 9 set on a service whose wallet holds account 7. *)
Lemma SetBHEerbase_then_BHEerbase_witness :
  9 <> zeroAddress
  /\ outcome (BHEerbase
                (fst (SetBHEerbase 9
                        (service config0 powEngine (oneWallet 7) false 0)))) =
       Returns 9.
Proof.
  split; [discriminate|].
  destruct (SetBHEerbase_then_BHEerbase
              (service config0 powEngine (oneWallet 7) false 0) 9)
    as (Hrun & _); [discriminate|].
  rewrite Hrun. reflexivity.
Defined.

(** [StartMining] with 0 threads on an idle proof-of-work service. *)
Lemma StartMining_launch_implies_witness :
  In (Miner_Start 7)
     (calls (StartMining 0 (service config0 powEngine (oneWallet 7) false 0)))
  /\ outcome (StartMining 0 (service config0 powEngine (oneWallet 7) false 0)) =
       Returns tt
  /\ s_BHEerbase
       (after (StartMining 0 (service config0 powEngine (oneWallet 7) false 0))) = 7.
Proof.
  assert (Hin : In (Miner_Start 7)
                  (calls (StartMining 0
                            (service config0 powEngine (oneWallet 7) false 0))))
    by by_search.
  destruct (StartMining_launch_implies
              (service config0 powEngine (oneWallet 7) false 0) 0 7 Hin)
    as (_ & Hok & Hstored & _).
  split; [exact Hin | split; [exact Hok | exact Hstored]].
Defined.

(** [StartMining] under clique with mining address 8 and a wallet that
    only holds account 7: the signer is missing. *)
Lemma StartMining_failure_witness :
  outcome (StartMining 4 (service config0 cliqueEngine (oneWallet 7) false 8)) =
    Fails (ErrSignerMissing (Some (ErrCollaborator "unknown account")))
  /\ In (TxPool_SetGasPrice (Some 5))
        (calls (StartMining 4 (service config0 cliqueEngine (oneWallet 7) false 8)))
  /\ acceptTxs
       (s_protocolManager
          (after (StartMining 4
                    (service config0 cliqueEngine (oneWallet 7) false 8)))) = 0.
Proof.
  split; [reflexivity|].
  destruct (StartMining_failure
              (service config0 cliqueEngine (oneWallet 7) false 8) 4
              (ErrSignerMissing (Some (ErrCollaborator "unknown account")))
              eq_refl)
    as (_ & Hpushed & _ & _ & Hflag).
  split; [exact Hpushed | exact Hflag].
Defined.

(** [StartMining] under clique with a wallet for the resolved address. *)
Lemma StartMining_success_witness :
  IsMining (service config0 cliqueEngine (oneWallet 7) false 0) = false
  /\ BHEerbase (service config0 cliqueEngine (oneWallet 7) false 0) =
       (Returns 7, service config0 cliqueEngine (oneWallet 7) false 7,
        [AccountManager_Wallets; Wallet_Accounts])
  /\ outcome (StartMining 4 (service config0 cliqueEngine (oneWallet 7) false 0)) =
       Returns tt
  /\ Synced (after (StartMining 4
                      (service config0 cliqueEngine (oneWallet 7) false 0))) = true.
Proof.
  split; [reflexivity | split; [reflexivity|]].
  destruct (StartMining_success
              (service config0 cliqueEngine (oneWallet 7) false 0)
              (service config0 cliqueEngine (oneWallet 7) false 7)
              4 7 [AccountManager_Wallets; Wallet_Accounts]
              eq_refl eq_refl)
    as (Hok & _ & _ & Hsynced & _).
  - intros _. exists (mkWallet [mkAccount 7]). reflexivity.
  - split; [exact Hok | exact Hsynced].
Defined.


(** 5 light peers set aside out of a budget of 25; 50 light peers ignored
    with light serving off. *)
Lemma Start_peer_budget_witness :
  In (ProtocolManager_Start 20)
     (calls (Start 64 (mkServer 25)
               (service (withLight 1 5) powEngine (oneWallet 7) false 0)))
  /\ In (ProtocolManager_Start 25)
        (calls (Start 64 (mkServer 25)
                  (service (withLight 0 50) powEngine (oneWallet 7) false 0))).
Proof.
  split.
  - destruct (Start_peer_budget 64 (mkServer 25)
                (service (withLight 1 5) powEngine (oneWallet 7) false 0))
      as (_ & Hon).
    destruct Hon as (_ & Hin & _);
      [reflexivity | reflexivity | split; by_evaluation | by_evaluation |].
    exact Hin.
  - destruct (Start_peer_budget 64 (mkServer 25)
                (service (withLight 0 50) powEngine (oneWallet 7) false 0))
      as (Hoff & _).
    destruct Hoff as (_ & Hin); [by_evaluation|].
    exact Hin.
Defined.

(** [Stop] after a [Start] that failed on the peer configuration. *)
Lemma Stop_after_Start_witness :
  outcome (Start 64 (mkServer 25)
             (service (withLight 1 50) powEngine (oneWallet 7) false 0)) =
    Fails (ErrInvalidPeerConfig 50 25)
  /\ outcome (Stop allFail
                (after (Start 64 (mkServer 25)
                          (service (withLight 1 50) powEngine (oneWallet 7)
                             false 0)))) =
       Returns tt.
Proof.
  split; [reflexivity|].
  apply (proj1 (Stop_after_Start 64 allFail (mkServer 25)
                  (service (withLight 1 50) powEngine (oneWallet 7) false 0)
                  eq_refl)).
Defined.

(** Two calls of [Stop] on a fresh service. *)
Lemma Stop_twice_panics_witness :
  s_closeBloomHandler (service config0 cliqueEngine noWallet false 0) = ChanOpen
  /\ outcome (Stop allFail
                (after (Stop allFail
                          (service config0 cliqueEngine noWallet false 0)))) =
       Panics "close of closed channel".
Proof.
  split; [reflexivity|].
  apply (Stop_twice_panics allFail
           (service config0 cliqueEngine noWallet false 0)).
  reflexivity.
Defined.

(** [Stop] on the service constructed from [config0]. *)
Lemma Stop_on_constructed_witness :
  exists s,
    outcome (New 64 lightSync isValid 1000000000 9 (environment (Some 9)) config0) =
      Returns s
    /\ outcome (Stop noneFail s) = Returns tt.
Proof.
  eexists. split; [reflexivity|].
  apply (proj1 (Stop_on_constructed 64 lightSync isValid 1000000000 9 noneFail
                  (environment (Some 9)) config0 _ eq_refl)).
Defined.

(** Extra data against a maximum of 32 bytes: 3 bytes are kept, 40 bytes
    are dropped, and in each case the result fits. *)
Lemma makeExtraData_bounded_witness :
  0 <= 32
  /\ Z.of_nat (List.length (makeExtraData 32 defaultExtra longExtra)) <= 32
  /\ Z.of_nat (List.length (makeExtraData 32 defaultExtra [])) <= 32.
Proof.
  assert (Hmax : 0 <= 32) by by_evaluation.
  split; [exact Hmax | split].
  - apply (makeExtraData_bounded 32 defaultExtra longExtra Hmax).
  - apply (makeExtraData_bounded 32 defaultExtra [] Hmax).
Defined.

Lemma makeExtraData_given_witness :
  shortExtra <> []
  /\ makeExtraData 32 defaultExtra shortExtra = shortExtra
  /\ longExtra <> []
  /\ makeExtraData 32 defaultExtra longExtra = [].
Proof.
  assert (Hshort : shortExtra <> []) by discriminate.
  assert (Hlong : longExtra <> []) by discriminate.
  split; [exact Hshort | split; [|split; [exact Hlong|]]].
  - apply (proj1 (makeExtraData_given 32 defaultExtra shortExtra Hshort)).
    by_evaluation.
  - apply (proj2 (makeExtraData_given 32 defaultExtra longExtra Hlong)).
    by_evaluation.
Defined.

(** Construction in archive mode with budgets 100/7/1: the chain is built
    with the dirty cache disabled and a dirty limit of 0. *)
Lemma New_archive_dirty_limit_witness :
  In (NewBlockChain (mkCacheConfig 104 0 true 3))
     (calls (New 64 lightSync isValid 1000000000 9 (environment (Some 9))
               (withCaches true 100 7 1)))
  /\ NoPruning (withCaches true 100 7 1) = true
  /\ TrieDirtyLimit (mkCacheConfig 104 0 true 3) <= 0.
Proof.
  assert (Hin : In (NewBlockChain (mkCacheConfig 104 0 true 3))
                  (calls (New 64 lightSync isValid 1000000000 9
                            (environment (Some 9)) (withCaches true 100 7 1))))
    by by_search.
  destruct (New_archive_dirty_limit 64 lightSync isValid 1000000000 9
              (environment (Some 9)) (withCaches true 100 7 1)
              (mkCacheConfig 104 0 true 3) Hin) as (_ & Hlimit).
  split; [exact Hin | split; [reflexivity | exact (Hlimit eq_refl)]].
Defined.

(** Construction on a store whose chain configuration is incompatible from
    block 100 on: the head is moved back to block 100. *)
Lemma New_rewinds_only_on_compat_error_witness :
  In (BlockChain_SBHEead 100)
     (calls (New 64 lightSync isValid 1000000000 9 incompatibleGenesis config0))
  /\ snd (env_SetupGenesisBlock incompatibleGenesis) = ConfigCompatError 100.
Proof.
  assert (Hin : In (BlockChain_SBHEead 100)
                  (calls (New 64 lightSync isValid 1000000000 9
                            incompatibleGenesis config0)))
    by by_search.
  split; [exact Hin|].
  apply (New_rewinds_only_on_compat_error 64 lightSync isValid 1000000000 9
           incompatibleGenesis config0 100 Hin).
Defined.

(** Construction on a store of version 7 by code of version 9. *)
Lemma New_writes_version_only_when_older_witness :
  In (WriteDatabaseVersion 9)
     (calls (New 64 lightSync isValid 1000000000 9 (environment (Some 7)) config0))
  /\ SkipBcVersionCheck config0 = false.
Proof.
  assert (Hin : In (WriteDatabaseVersion 9)
                  (calls (New 64 lightSync isValid 1000000000 9
                            (environment (Some 7)) config0)))
    by by_search.
  destruct (New_writes_version_only_when_older 64 lightSync isValid 1000000000 9
              (environment (Some 7)) config0 9 Hin) as (_ & Hskip & _).
  split; [exact Hin | exact Hskip].
Defined.

(** Construction with a price floor of -3 and no oracle default: the
    oracle gets the package default. *)
Lemma New_oracle_default_witness :
  In (NewOracle (Some 1000000000))
     (calls (New 64 lightSync isValid 1000000000 9 (environment (Some 9))
               (withGasPrice (Some (-3)))))
  /\ exists p, Some 1000000000 = Some p
       /\ (GPO_Default (withGasPrice (Some (-3))) = Some p
           \/ (GPO_Default (withGasPrice (Some (-3))) = None
               /\ (p = 1000000000
                   \/ (0 < p /\ GasPrice (Miner (withGasPrice (Some (-3)))) =
                                  Some p)))).
Proof.
  assert (Hin : In (NewOracle (Some 1000000000))
                  (calls (New 64 lightSync isValid 1000000000 9
                            (environment (Some 9)) (withGasPrice (Some (-3))))))
    by by_search.
  split; [exact Hin|].
  apply (New_oracle_default 64 lightSync isValid 1000000000 9
           (environment (Some 9)) (withGasPrice (Some (-3)))
           (Some 1000000000) Hin).
Defined.

(** The service constructed from [config0], whose floor is 5. *)
Lemma New_service_price_floor_witness :
  exists s,
    outcome (New 64 lightSync isValid 1000000000 9 (environment (Some 9)) config0) =
      Returns s
    /\ exists p, s_gasPrice s = Some p
         /\ (p = 1000000000 \/ (0 < p /\ GasPrice (Miner config0) = Some p)).
Proof.
  eexists. split; [reflexivity|].
  apply (New_service_price_floor 64 lightSync isValid 1000000000 9
           (environment (Some 9)) config0 _ eq_refl).
Defined.

(** Construction on a store that cannot be opened. *)
Lemma New_store_failure_witness :
  cfg_SyncMode config0 <> lightSync
  /\ isValid (cfg_SyncMode config0) = true
  /\ env_OpenDatabaseWithFreezer brokenStore =
       Some (ErrCollaborator "cannot open chaindata")
  /\ outcome (New 64 lightSync isValid 1000000000 9 brokenStore config0) =
       Fails (ErrCollaborator "cannot open chaindata")
  /\ calls (New 64 lightSync isValid 1000000000 9 brokenStore config0) =
       [OpenDatabaseWithFreezer].
Proof.
  assert (H1 : cfg_SyncMode config0 <> lightSync) by discriminate.
  assert (H2 : isValid (cfg_SyncMode config0) = true) by reflexivity.
  destruct (New_store_failure 64 lightSync isValid 1000000000 9
              brokenStore config0 H1 H2) as (Hopen & _).
  destruct (Hopen (ErrCollaborator "cannot open chaindata") eq_refl)
    as (Hfails & Hcalls).
  repeat (split; [first [assumption | reflexivity]|]). exact Hcalls.
Defined.

(** Budgets 100/7/1 in archive mode with snapshots: the total goes from
    108 to 104 + 0 + 3 = 107. *)
Lemma New_redistribution_total_witness :
  TrieCleanCache
    (after (New 64 lightSync isValid 1000000000 9 (environment None)
              (withCaches true 100 7 1)))
  + TrieDirtyCache
      (after (New 64 lightSync isValid 1000000000 9 (environment None)
                (withCaches true 100 7 1)))
  + SnapshotCache
      (after (New 64 lightSync isValid 1000000000 9 (environment None)
                (withCaches true 100 7 1)))
  <= 100 + 7 + 1
  /\ 100 + 7 + 1 - 1 <=
     TrieCleanCache
       (after (New 64 lightSync isValid 1000000000 9 (environment None)
                 (withCaches true 100 7 1)))
     + TrieDirtyCache
         (after (New 64 lightSync isValid 1000000000 9 (environment None)
                   (withCaches true 100 7 1)))
     + SnapshotCache
         (after (New 64 lightSync isValid 1000000000 9 (environment None)
                   (withCaches true 100 7 1))).
Proof.
  assert (H1 : 0 < 64) by reflexivity.
  assert (H2 : cfg_SyncMode (withCaches true 100 7 1) <> lightSync) by discriminate.
  assert (H3 : isValid (cfg_SyncMode (withCaches true 100 7 1)) = true)
    by reflexivity.
  assert (H4 : NoPruning (withCaches true 100 7 1) = true) by reflexivity.
  assert (H5 : 0 < TrieDirtyCache (withCaches true 100 7 1)) by reflexivity.
  assert (H6 : minInt 64 <= TrieCleanCache (withCaches true 100 7 1))
    by by_evaluation.
  destruct (New_redistribution_total 64 lightSync isValid 1000000000 9
              (environment None) (withCaches true 100 7 1) H1 H2 H3 H4 H5 H6)
    as (Hsnap & _).
  destruct Hsnap as ((Hlow & Hhigh) & _);
    [reflexivity | by_evaluation | by_evaluation | by_evaluation |].
  split; [exact Hhigh | exact Hlow].
Defined.
